(** * Godot 4 texture extractor: frame scanning and file-name recovery

    A shallow embedding of [extract_godot_images.py]: the scanning loop of
    [extract_webp_from_ctex], the output-name heuristic it contains, and the
    counting loop of [extract_images].

    Conventions.
    - Python integers are [Z]; [bytes.find] answers [-1] when nothing is found.
    - [bytes] values are [list byte]; slices follow Python's clamping rules.
    - File names are [string]s (sequences of UTF-8 code units; the patterns the
      program looks for, ['-'], ['.'] and ['.ctex'], are ASCII, so searching
      code units and searching code points agree).
    - The file system is explicit state threaded through a small
      state-and-exception monad; [try ... except Exception] is the handler
      at the end of [extract_webp_from_ctex]. *)

From stdpp Require Import gmap strings list sorting.
From Stdlib Require Import ZArith Lia Strings.Byte Strings.Ascii.

Open Scope string_scope.
Open Scope Z_scope.

(* ===================================================================== *)
(** ** Python [str] operations used by the program *)
(* ===================================================================== *)

Module PyStr.

(** [s.startswith(p)] *)
Definition startswith (p s : string) : bool := String.prefix p s.

(** [sub in s] *)
Fixpoint contains (sub s : string) : bool :=
  startswith sub s ||
  match s with
  | EmptyString => false
  | String _ t => contains sub t
  end.

(** [s.split(sep)] for a one-character separator: the list of the
    pieces between the separators, never empty. *)
Fixpoint split (sep : ascii) (s : string) : list string :=
  match s with
  | EmptyString => [EmptyString]
  | String c t =>
      if Ascii.eqb c sep then EmptyString :: split sep t
      else match split sep t with
           | piece :: rest => String c piece :: rest
           | [] => [String c EmptyString]
           end
  end.

(** [l[0]]: raises [IndexError] on the empty list. *)
Definition item0 (l : list string) : option string := head l.

(** The scan behind [s.replace(old, new)] for a non-empty [old]: the text
    is read left to right; where [old] starts, [new] is emitted and the
    next [len(old) - 1] characters are passed over ([skip] counts them);
    elsewhere the character is copied. *)
Fixpoint replace_from (old new : string) (skip : nat) (s : string) : string :=
  match s with
  | EmptyString => EmptyString
  | String c t =>
      match skip with
      | S k => replace_from old new k t
      | O =>
          if startswith old s
          then new +:+ replace_from old new (String.length old - 1) t
          else String c (replace_from old new 0 t)
      end
  end.

(** [s.replace(old, new)], [old] non-empty. *)
Definition replace (old new s : string) : string := replace_from old new 0 s.

End PyStr.

(** Lines 86-92 of [extract_webp_from_ctex]: the name with the generated
    identifier, or else the [.ctex] text, taken out.  [None] stands for an
    exception (the only candidate is the [IndexError] of
    [split('-')[0]]). *)
Definition base_name (file_name : string) : option string :=
  if PyStr.contains "-" file_name
  then PyStr.item0 (PyStr.split "-"%char file_name)
  else Some (PyStr.replace ".ctex" "" file_name).

(** Lines 95-96: the default extension. *)
Definition add_default_ext (name : string) : string :=
  if negb (PyStr.contains "." name) then name +:+ ".webp" else name.

(** Lines 86-96 together: the value of the variable [original_name] when
    the output path is built. *)
Definition original_name (file_name : string) : option string :=
  match base_name file_name with
  | None => None
  | Some base => Some (add_default_ext base)
  end.

(* ===================================================================== *)
(** ** Python [bytes] operations used by the program *)
(* ===================================================================== *)

#[global] Instance byte_eq_decision : EqDecision byte := Byte.byte_eq_dec.

Module PyBytes.

(** [len(b)] *)
Definition len (b : list byte) : Z := Z.of_nat (length b).

(** How a slice bound or a start position is brought into [0 .. len]:
    a negative one counts from the end. *)
Definition clamp (n i : Z) : Z :=
  if i <? 0 then Z.max 0 (i + n) else Z.min i n.

(** [b[lo:hi]] *)
Definition slice (b : list byte) (lo hi : Z) : list byte :=
  let lo' := clamp (len b) lo in
  let hi' := clamp (len b) hi in
  take (Z.to_nat (hi' - lo')) (drop (Z.to_nat lo') b).

(** [b.startswith(p)] *)
Fixpoint startswith (p b : list byte) : bool :=
  match p, b with
  | [], _ => true
  | _ :: _, [] => false
  | x :: p', y :: b' => if decide (x = y) then startswith p' b' else false
  end.

(** The left-to-right search behind [find]: [b] is what is left of the
    buffer and [i] the index of its first byte. *)
Fixpoint find_from (sub b : list byte) (i : Z) : Z :=
  if startswith sub b then i
  else match b with
       | [] => -1
       | _ :: t => find_from sub t (i + 1)
       end.

(** [b.find(sub, start)]: the lowest index at or after [start] where
    [sub] occurs, or [-1]. *)
Definition find (sub b : list byte) (start : Z) : Z :=
  if len b <? start then -1
  else
    let s := clamp (len b) start in
    find_from sub (drop (Z.to_nat s) b) s.

(** The value of one byte, [0 .. 255]. *)
Definition byte_val (x : byte) : Z := Z.of_N (Byte.to_N x).

(** [struct.unpack('<I', b)[0]]: four bytes, least significant first;
    any other length raises [struct.error] ([None]). *)
Definition unpack_u32_le (b : list byte) : option Z :=
  match b with
  | [b0; b1; b2; b3] =>
      Some (Z.lor (byte_val b0)
             (Z.lor (Z.shiftl (byte_val b1) 8)
               (Z.lor (Z.shiftl (byte_val b2) 16)
                      (Z.shiftl (byte_val b3) 24))))
  | _ => None
  end.

End PyBytes.

(* ===================================================================== *)
(** ** Paths, the file system, exceptions *)
(* ===================================================================== *)

(** A [pathlib.Path] is the list of its components. *)
Abbreviation Path := (list string).

(** [p.name]: the last component. *)
Definition path_name (p : Path) : string := default "" (last p).

(** [p / name] for a one-component [name]; [pathlib] leaves out an empty
    component and the component ["."]. *)
Definition path_join (p : Path) (name : string) : Path :=
  if bool_decide (name = "" ∨ name = ".") then p else p ++ [name].

(** The file system: the contents of the files, and the paths on which
    [open] raises [OSError], with the text of the error. *)
Record FileSystem := {
  fs_files : gmap Path (list byte);
  fs_denied : gmap Path string
}.

Inductive exn :=
| OSError (msg : string)
| StructError (msg : string)
| IndexError (msg : string).

(** [str(e)] *)
Definition str_exn (e : exn) : string :=
  match e with
  | OSError msg | StructError msg | IndexError msg => msg
  end.

(** Computations that read and write the file system and may raise. *)
Definition M (A : Type) : Type := FileSystem -> (exn + A) * FileSystem.

Definition ret {A} (a : A) : M A := fun fs => (inr a, fs).

Definition raise {A} (e : exn) : M A := fun fs => (inl e, fs).

Definition bind {A B} (m : M A) (k : A -> M B) : M B :=
  fun fs =>
    match m fs with
    | (inl e, fs') => (inl e, fs')
    | (inr a, fs') => k a fs'
    end.

Notation "x <~ m ;; k" := (bind m (fun x => k))
  (at level 100, m at next level, right associativity).

(** An operation that raises [e] when it has no result. *)
Definition or_raise {A} (e : exn) (o : option A) : M A :=
  match o with
  | Some a => ret a
  | None => raise e
  end.

(** [with open(path, 'rb') as f: f.read()] *)
Definition read_file (path : Path) : M (list byte) :=
  fun fs =>
    match fs_denied fs !! path with
    | Some msg => (inl (OSError msg), fs)
    | None =>
        match fs_files fs !! path with
        | Some data => (inr data, fs)
        | None => (inl (OSError "No such file or directory"), fs)
        end
    end.

(** [with open(path, 'wb') as f: f.write(data)] *)
Definition write_file (path : Path) (data : list byte) : M unit :=
  fun fs =>
    match fs_denied fs !! path with
    | Some msg => (inl (OSError msg), fs)
    | None =>
        (inr tt, {| fs_files := <[path := data]> (fs_files fs);
                    fs_denied := fs_denied fs |})
    end.

(* ===================================================================== *)
(** ** [extract_webp_from_ctex] *)
(* ===================================================================== *)

Import PyBytes.

(** [b'RIFF'] and [b'WEBP'] *)
Definition webp_sig : list byte := ["R"; "I"; "F"; "F"]%byte.
Definition webp_tag : list byte := ["W"; "E"; "B"; "P"]%byte.

(** The message of line 108. *)
Definition not_found_msg : string := "未找到WebP数据".

(** How one pass through the body of [while True] ends. *)
Inductive flow :=
| Return (result : bool * string)
| Break
| Continue (pos : Z).

(** Lines 70-106: one pass, entered with the search position [pos];
    [Continue] carries the position after [pos += 1]. *)
Definition loop_body (ctex_path output_dir : Path) (data : list byte)
    (pos : Z) : M flow :=
  let pos := find webp_sig data pos in
  if pos =? -1 then ret Break
  else if pos + 12 <=? len data then
    if bool_decide (slice data (pos + 8) (pos + 12) = webp_tag) then
      size <~ or_raise (StructError "unpack requires a buffer of 4 bytes")
                (unpack_u32_le (slice data (pos + 4) (pos + 8))) ;;
      if pos + size + 8 <=? len data then
        let webp_data := slice data pos (pos + size + 8) in
        let file_name := path_name ctex_path in
        name <~ or_raise (IndexError "list index out of range")
                  (original_name file_name) ;;
        let output_path := path_join output_dir name in
        _ <~ write_file output_path webp_data ;;
        ret (Return (true, path_name output_path))
      else ret (Continue (pos + 1))
    else ret (Continue (pos + 1))
  else ret (Continue (pos + 1)).

(** How the loop is left: by [return] inside it, or by [break]. *)
Inductive loop_exit :=
| Returned (result : bool * string)
| Broke.

(** Lines 69-106: the loop, run for at most [fuel] passes; [None] when
    the passes are used up. *)
Fixpoint while_loop (fuel : nat) (ctex_path output_dir : Path)
    (data : list byte) (pos : Z) : M (option loop_exit) :=
  match fuel with
  | O => ret None
  | S fuel' =>
      f <~ loop_body ctex_path output_dir data pos ;;
      match f with
      | Return result => ret (Some (Returned result))
      | Break => ret (Some Broke)
      | Continue pos' => while_loop fuel' ctex_path output_dir data pos'
      end
  end.

(** Lines 61-108, the body of [try]. *)
Definition extract_try (ctex_path output_dir : Path) : M (option (bool * string)) :=
  data <~ read_file ctex_path ;;
  let pos := 0 in
  e <~ while_loop (S (length data)) ctex_path output_dir data pos ;;
  match e with
  | None => ret None
  | Some (Returned result) => ret (Some result)
  | Some Broke => ret (Some (false, not_found_msg))
  end.

(** [extract_webp_from_ctex(ctex_path, output_dir)]: the result pair and
    the file system afterwards.  [except Exception as e] turns an exception
    into [(False, str(e))].  The answer is [None] only if the loop used up
    its passes, which [while_loop_enough_fuel] rules out. *)
Definition extract_webp_from_ctex (ctex_path output_dir : Path)
    (fs : FileSystem) : option ((bool * string) * FileSystem) :=
  match extract_try ctex_path output_dir fs with
  | (inl e, fs') => Some ((false, str_exn e), fs')
  | (inr None, _) => None
  | (inr (Some result), fs') => Some (result, fs')
  end.

(* ===================================================================== *)
(** ** [extract_images]: the counting loop *)
(* ===================================================================== *)

(** The three accumulators of lines 163-165. *)
Record counters := {
  success_count : nat;
  failed_count : nat;
  failed_files : list string
}.

(** Lines 167-176: the [for] loop over [ctex_files]. *)
Fixpoint extract_loop (ctex_files : list Path) (output_dir : Path)
    (acc : counters) (fs : FileSystem) : option (counters * FileSystem) :=
  match ctex_files with
  | [] => Some (acc, fs)
  | ctex_file :: rest =>
      match extract_webp_from_ctex ctex_file output_dir fs with
      | None => None
      | Some ((success, result), fs') =>
          let acc' :=
            if success
            then {| success_count := S (success_count acc);
                    failed_count := failed_count acc;
                    failed_files := failed_files acc |}
            else {| success_count := success_count acc;
                    failed_count := S (failed_count acc);
                    failed_files := failed_files acc ++ [path_name ctex_file] |}
          in extract_loop rest output_dir acc' fs'
      end
  end.

(** Lines 163-176. *)
Definition extract_batch (ctex_files : list Path) (output_dir : Path)
    (fs : FileSystem) : option (counters * FileSystem) :=
  extract_loop ctex_files output_dir
    {| success_count := 0; failed_count := 0; failed_files := [] |} fs.

(* ===================================================================== *)
(** ** The scan on its own, and the checks on a candidate *)
(* ===================================================================== *)

(** Lines 70-72 and 106 without the checks between them: the offsets
    [find] yields when it is started again one past each offset, for at
    most [fuel] calls. *)
Fixpoint scan (fuel : nat) (data : list byte) (pos : Z) : list Z :=
  match fuel with
  | O => []
  | S fuel' =>
      let pos := find webp_sig data pos in
      if pos =? -1 then [] else pos :: scan fuel' data (pos + 1)
  end.

(** The offsets of the scan of a whole buffer from [pos]. *)
Definition candidates (data : list byte) (pos : Z) : list Z :=
  scan (S (length data)) data pos.

(** [sub] occurs in [data] at the index [k]. *)
Definition occurs_at (sub data : list byte) (k : Z) : Prop :=
  0 <= k /\ slice data k (k + len sub) = sub.

(** Line 79 at the offset [k]. *)
Definition declared_size (data : list byte) (k : Z) : option Z :=
  unpack_u32_le (slice data (k + 4) (k + 8)).

(** The three checks of lines 75, 77 and 82 at the offset [k]. *)
Definition frame_ok (data : list byte) (k : Z) : bool :=
  (k + 12 <=? len data)
  && bool_decide (slice data (k + 8) (k + 12) = webp_tag)
  && match declared_size data k with
     | Some size => k + size + 8 <=? len data
     | None => false
     end.

(** The file system after [data] has been written to [path]. *)
Definition fs_with (path : Path) (data : list byte) (fs : FileSystem) : FileSystem :=
  {| fs_files := <[path := data]> (fs_files fs); fs_denied := fs_denied fs |}.

(* ===================================================================== *)
(** ** The derivation of the output name as the specification words it *)
(* ===================================================================== *)

Module Spec.

(** "the substring before the first [-]" *)
Fixpoint before_first (sep : ascii) (s : string) : string :=
  match s with
  | EmptyString => EmptyString
  | String c t =>
      if Ascii.eqb c sep then EmptyString else String c (before_first sep t)
  end.

(** "[F] with its container-specific suffix removed" *)
Fixpoint remove_suffix (suffix s : string) : string :=
  if String.eqb s suffix then EmptyString
  else match s with
       | EmptyString => EmptyString
       | String c t => String c (remove_suffix suffix t)
       end.

(** Step 8 of the extraction algorithm, sentence by sentence. *)
Definition derive (F : string) : string :=
  let base :=
    if PyStr.contains "-" F then before_first "-"%char F
    else remove_suffix ".ctex" F in
  if PyStr.contains "." base then base else base +:+ ".webp".

End Spec.

(* ===================================================================== *)
(** ** Well-formed frames and per-file results, for the statements *)
(* ===================================================================== *)

(** A frame with the declared size [size] lies at the offset [k]: the
    marker, the size field, the type tag, and the whole of it inside the
    buffer. *)
Definition well_formed_frame (data : list byte) (k size : Z) : Prop :=
  0 <= k
  /\ slice data k (k + 4) = webp_sig
  /\ unpack_u32_le (slice data (k + 4) (k + 8)) = Some size
  /\ slice data (k + 8) (k + 12) = webp_tag
  /\ k + 8 + size <= len data.

(** [k] is the first offset at or after [pos] with a well-formed frame. *)
Definition first_frame (data : list byte) (pos k size : Z) : Prop :=
  pos <= k
  /\ well_formed_frame data k size
  /\ forall j size', pos <= j < k -> ~ well_formed_frame data j size'.

(** Lines 101-104: the frame is written and the loop is left. *)
Definition save_frame (output_path : Path) (webp_data : list byte)
    (fs : FileSystem) : (exn + option loop_exit) * FileSystem :=
  match fs_denied fs !! output_path with
  | Some msg => (inl (OSError msg), fs)
  | None =>
      (inr (Some (Returned (true, path_name output_path))),
       fs_with output_path webp_data fs)
  end.

(** The results of [extract_webp_from_ctex] on the files of a batch, one
    after the other on the same file system. *)
Fixpoint results_of (ctex_files : list Path) (output_dir : Path)
    (fs : FileSystem) : option (list (bool * string)) :=
  match ctex_files with
  | [] => Some []
  | ctex_file :: rest =>
      match extract_webp_from_ctex ctex_file output_dir fs with
      | None => None
      | Some (r, fs') =>
          match results_of rest output_dir fs' with
          | None => None
          | Some rs => Some (r :: rs)
          end
      end
  end.

(** The names of the files whose result is a failure. *)
Fixpoint failed_names (ctex_files : list Path) (rs : list (bool * string))
    : list string :=
  match ctex_files, rs with
  | f :: fs, (ok, _) :: rs' =>
      if ok then failed_names fs rs' else path_name f :: failed_names fs rs'
  | _, _ => []
  end.

(** How many results are successes, how many failures. *)
Definition count_ok (rs : list (bool * string)) : nat :=
  length (filter (fun r => fst r = true) rs).

Definition count_failed (rs : list (bool * string)) : nat :=
  length (filter (fun r => fst r = false) rs).

(* ===================================================================== *)
(** ** Sample inputs *)
(* ===================================================================== *)

(** A buffer with a marker whose declared size (100) overruns the buffer,
    then a whole frame of 14 bytes at the offset 12, then one more byte. *)
Definition sample_data : list byte :=
  ["R"; "I"; "F"; "F"; "d"; "000"; "000"; "000"; "W"; "E"; "B"; "P";
   "R"; "I"; "F"; "F"; "006"; "000"; "000"; "000"; "W"; "E"; "B"; "P";
   "001"; "002";
   "003"]%byte.

(** A buffer without any marker. *)
Definition sample_noise : list byte :=
  ["R"; "I"; "F"; "001"; "W"; "E"; "B"; "P"]%byte.

Definition sample_path : Path := ["imported"; "icon.png-9f8e.ctex"].
Definition sample_bad_path : Path := ["imported"; "noise-1234.ctex"].
Definition sample_missing : Path := ["imported"; "gone-0000.ctex"].
Definition sample_out : Path := ["extracted_images"].

Definition sample_fs : FileSystem :=
  {| fs_files := {[ sample_path := sample_data; sample_bad_path := sample_noise ]};
     fs_denied := ∅ |}.
(* ===================================================================== *)
(** ** [clean_filename] *)
(* ===================================================================== *)

(** Line 117: the nine characters [<], [>], [:], the double quote, [/],
    the backslash, [|], [?] and [*]. *)
Definition unsafe_chars : string := "<>:" +:+ String "034"%char "/\|?*".

(** Lines 114-120: each unsafe character in turn is replaced by ['_']. *)
Definition clean_filename (filename : string) : string :=
  fold_left (fun filename char => PyStr.replace (String char "") "_" filename)
    (String.list_ascii_of_string unsafe_chars) filename.

(** A text with every character changed by [f]. *)
Fixpoint string_map (f : ascii -> ascii) (s : string) : string :=
  match s with
  | EmptyString => EmptyString
  | String c t => String (f c) (string_map f t)
  end.

(** What becomes of one character when the characters [cs] are unsafe. *)
Definition sanitize (cs : list ascii) (c : ascii) : ascii :=
  if bool_decide (c ∈ cs) then "_"%char else c.

(* ===================================================================== *)
(** ** [find_godot_project], [find_imported_files], [extract_images] *)
(* ===================================================================== *)

(** A computation that may also use up the passes of a loop ([None]). *)
Definition MF (A : Type) : Type :=
  FileSystem -> option ((exn + A) * FileSystem).

Definition retF {A} (a : A) : MF A := fun fs => Some (inr a, fs).

Definition liftF {A} (m : M A) : MF A := fun fs => Some (m fs).

Definition bindF {A B} (m : MF A) (k : A -> MF B) : MF B :=
  fun fs =>
    match m fs with
    | None => None
    | Some (inl e, fs') => Some (inl e, fs')
    | Some (inr a, fs') => k a fs'
    end.

Notation "x <~~ m ;; k" := (bindF m (fun x => k))
  (at level 100, m at next level, right associativity).

(** [if output_path:] for an optional string: [None] and the empty string
    count as false. *)
Definition truthy (s : option string) : bool :=
  match s with
  | None => false
  | Some s => negb (String.eqb s "")
  end.

Section Driver.

(** What [pathlib] and the operating system do is left open: [Path(s)],
    [p.resolve()], [p.exists()], [p.glob(pattern)] and
    [p.mkdir(parents=True, exist_ok=True)] are any operations of these
    types.  What is printed is not part of the model. *)
Variables (to_path : string -> Path)
          (resolve : Path -> M Path)
          (path_exists : Path -> M bool)
          (glob : Path -> string -> M (list Path))
          (mkdir : Path -> M unit).

(** Lines 26-38. *)
Definition find_godot_project (project_path : Path) : M (option Path) :=
  project_path <~ resolve project_path ;;
  has_file <~ path_exists (path_join project_path "project.godot") ;;
  if has_file then ret (Some project_path)
  else
    has_dir <~ path_exists (path_join project_path ".godot") ;;
    if has_dir then ret (Some project_path) else ret None.

(** Lines 41-56. *)
Definition find_imported_files (project_path : Path)
    : M (list Path * list Path) :=
  let imported_dir := path_join (path_join project_path ".godot") "imported" in
  there <~ path_exists imported_dir ;;
  if negb there then ret ([], [])
  else
    ctex_files <~ glob imported_dir "*.ctex" ;;
    sample_files <~ glob imported_dir "*.sample" ;;
    ret (ctex_files, sample_files).

(** Lines 163-176 as a step of [extract_images]. *)
Definition run_batch (ctex_files : list Path) (output_dir : Path) : MF counters :=
  fun fs =>
    match extract_batch ctex_files output_dir fs with
    | None => None
    | Some (c, fs') => Some (inr c, fs')
    end.

(** Lines 123-207: the value returned and the file system afterwards. *)
Definition extract_images (project_path : string)
    (output_path : option string) : MF bool :=
  project_path <~~ liftF (resolve (to_path project_path)) ;;
  godot_project <~~ liftF (find_godot_project project_path) ;;
  match godot_project with
  | None => retF false
  | Some godot_project =>
      output_dir <~~
        liftF (if truthy output_path
               then resolve (to_path (default "" output_path))
               else ret (path_join godot_project "extracted_images")) ;;
      _ <~~ liftF (mkdir output_dir) ;;
      found <~~ liftF (find_imported_files godot_project) ;;
      let '(ctex_files, sample_files) := found in
      if bool_decide (ctex_files = []) && bool_decide (sample_files = [])
      then retF false
      else
        c <~~ run_batch ctex_files output_dir ;;
        extracted_files <~~ liftF (glob output_dir "*") ;;
        retF true
  end.

End Driver.

(* ===================================================================== *)
(** ** More sample inputs *)
(* ===================================================================== *)

(** A header whose size field is 0: 12 bytes, the frame is the first 8. *)
Definition sample_short : list byte :=
  ["R"; "I"; "F"; "F"; "000"; "000"; "000"; "000"; "W"; "E"; "B"; "P"]%byte.

Definition sample_twin : Path := ["imported"; "icon.png-77aa.ctex"].
Definition sample_stub : Path := ["imported"; "stub-0001.ctex"].

(** Two containers whose names give the same output name, and a stored
    eight-byte frame. *)
Definition sample_fs2 : FileSystem :=
  {| fs_files := {[ sample_path := sample_data;
                    sample_twin := sample_short;
                    sample_stub := slice sample_short 0 8 ]};
     fs_denied := ∅ |}.

(** Counters added field by field. *)
Definition add_counters (a b : counters) : counters :=
  {| success_count := success_count a + success_count b;
     failed_count := failed_count a + failed_count b;
     failed_files := failed_files a ++ failed_files b |}.


(* ===================================================================== *)
(** ** Facts about the string operations *)
(* ===================================================================== *)

Section StringFacts.

Import PyStr.

Lemma startswith_nil s : startswith "" s = true.
Proof. by destruct s. Qed.

Lemma startswith_cons c p d s :
  startswith (String c p) (String d s)
  = bool_decide (c = d) && startswith p s.
Proof.
  unfold startswith; simpl.
  destruct (Ascii.ascii_dec c d) as [->|Hne].
  - by rewrite bool_decide_eq_true_2.
  - by rewrite bool_decide_eq_false_2.
Qed.

Lemma startswith_app p s :
  startswith p s = true <-> exists r, s = p +:+ r.
Proof.
  revert s; induction p as [|c p IH]; intros s.
  - rewrite startswith_nil. split; [by exists s | done].
  - destruct s as [|d s].
    + split; [done | by intros [r Hr]].
    + rewrite startswith_cons, andb_true_iff, bool_decide_eq_true, IH.
      split.
      * intros [-> [r ->]]. by exists r.
      * intros [r Hr]. simpl in Hr. injection Hr as -> ->. eauto.
Qed.

(** [c in s] for a single character. *)
Lemma contains_char_cons c d s :
  contains (String c "") (String d s)
  = bool_decide (c = d) || contains (String c "") s.
Proof. cbn [contains]. by rewrite startswith_cons, startswith_nil, andb_true_r. Qed.

Lemma contains_char_app c s t :
  contains (String c "") (s +:+ t)
  = contains (String c "") s || contains (String c "") t.
Proof.
  induction s as [|d s IH].
  - done.
  - change (String d s +:+ t) with (String d (s +:+ t)).
    by rewrite !contains_char_cons, IH, orb_assoc.
Qed.

Lemma contains_cons_false sub c s :
  contains sub (String c s) = false ->
  startswith sub (String c s) = false /\ contains sub s = false.
Proof. cbn [contains]. by intros ?%orb_false_iff. Qed.

(** [split] never yields the empty list, and its first piece is the
    text before the first separator. *)
Lemma split_first sep s :
  exists rest, split sep s = Spec.before_first sep s :: rest.
Proof.
  induction s as [|c s [rest IH]]; simpl.
  - by exists [].
  - destruct (Ascii.eqb c sep); [by eexists |].
    rewrite IH. by eexists.
Qed.

Lemma item0_split sep s :
  item0 (split sep s) = Some (Spec.before_first sep s).
Proof. by destruct (split_first sep s) as [rest ->]. Qed.

Lemma before_first_no_sep sep s :
  contains (String sep "") (Spec.before_first sep s) = false.
Proof.
  induction s as [|c s IH]; simpl; [done |].
  destruct (Ascii.eqb_spec c sep) as [->|Hne]; [done |].
  rewrite contains_char_cons, IH, orb_false_r.
  apply bool_decide_eq_false_2. congruence.
Qed.

(** Passing over [skip] characters. *)
Lemma replace_from_skip old new u s :
  replace_from old new (String.length u) (u +:+ s) = replace_from old new 0 s.
Proof. induction u as [|c u IH]; [done | apply IH]. Qed.

(** The two equations of [replace]: where [old] starts it is replaced
    and the scan goes on behind it; elsewhere one character is kept. *)
Lemma replace_match old new r :
  old <> "" ->
  replace old new (old +:+ r) = new +:+ replace old new r.
Proof.
  intros Hne. destruct old as [|c old]; [done |].
  unfold replace.
  change (String c old +:+ r) with (String c (old +:+ r)).
  cbn [replace_from].
  replace (startswith (String c old) (String c (old +:+ r))) with true.
  - cbn [String.length]. rewrite Nat.sub_1_r. cbn [Nat.pred].
    by rewrite replace_from_skip.
  - symmetry. apply startswith_app. by exists r.
Qed.

Lemma replace_keep old new c s :
  startswith old (String c s) = false ->
  replace old new (String c s) = String c (replace old new s).
Proof. unfold replace. cbn [replace_from]. by intros ->. Qed.

Lemma replace_absent old new s :
  contains old s = false -> replace old new s = s.
Proof.
  induction s as [|c s IH]; [done |].
  intros [Hs Hc]%contains_cons_false.
  by rewrite replace_keep, IH.
Qed.

(** Removing text adds no character. *)
Lemma replace_from_no_new_char old c k s :
  contains (String c "") s = false ->
  contains (String c "") (replace_from old "" k s) = false.
Proof.
  revert k; induction s as [|d s IH]; intros k; [done |].
  rewrite contains_char_cons. intros [Hd Hs]%orb_false_iff.
  cbn [replace_from]. destruct k as [|k]; [| by apply IH].
  destruct (startswith old (String d s)).
  - by apply IH.
  - by rewrite contains_char_cons, Hd, IH.
Qed.

(** [".ctex"] cannot begin inside a text free of it and end inside a
    following [".ctex"]: its only ['.'] is its first character. *)
Lemma ctex_no_straddle c a b :
  contains ".ctex" (String c a) = false ->
  startswith ".ctex" (String c (a +:+ ".ctex" +:+ b)) = false.
Proof.
  intros [Hs _]%contains_cons_false. revert Hs.
  rewrite !startswith_cons.
  destruct (bool_decide ("."%char = c)); [| done]. simpl.
  destruct a as [|c1 a]; [done |].
  change (String c1 a +:+ ".ctex" +:+ b) with (String c1 (a +:+ ".ctex" +:+ b)).
  rewrite !startswith_cons.
  destruct (bool_decide ("c"%char = c1)); [| done]. simpl.
  destruct a as [|c2 a]; [done |].
  change (String c2 a +:+ ".ctex" +:+ b) with (String c2 (a +:+ ".ctex" +:+ b)).
  rewrite !startswith_cons.
  destruct (bool_decide ("t"%char = c2)); [| done]. simpl.
  destruct a as [|c3 a]; [done |].
  change (String c3 a +:+ ".ctex" +:+ b) with (String c3 (a +:+ ".ctex" +:+ b)).
  rewrite !startswith_cons.
  destruct (bool_decide ("e"%char = c3)); [| done]. simpl.
  destruct a as [|c4 a]; [done |].
  change (String c4 a +:+ ".ctex" +:+ b) with (String c4 (a +:+ ".ctex" +:+ b)).
  rewrite !startswith_cons, !startswith_nil.
  by destruct (bool_decide ("x"%char = c4)).
Qed.

(** Every occurrence goes: the leftmost one is cut out and the rest of
    the text is treated in the same way. *)
Lemma replace_ctex_leftmost a b :
  contains ".ctex" a = false ->
  replace ".ctex" "" (a +:+ ".ctex" +:+ b) = a +:+ replace ".ctex" "" b.
Proof.
  induction a as [|c a IH]; intros Ha.
  - change ("" +:+ ".ctex" +:+ b) with (".ctex" +:+ b).
    by rewrite replace_match.
  - change (String c a +:+ ".ctex" +:+ b)
      with (String c (a +:+ ".ctex" +:+ b)).
    rewrite replace_keep by by apply ctex_no_straddle.
    apply contains_cons_false in Ha as [_ Ha].
    by rewrite IH.
Qed.

Lemma add_default_ext_has_dot base :
  contains "." (add_default_ext base) = true.
Proof.
  unfold add_default_ext.
  destruct (contains "." base) eqn:Hdot; simpl; [done |].
  by rewrite contains_char_app, orb_true_r.
Qed.

Lemma add_default_ext_no_dash base :
  contains "-" base = false -> contains "-" (add_default_ext base) = false.
Proof.
  intros Hb. unfold add_default_ext.
  destruct (negb (contains "." base)); [| done].
  by rewrite contains_char_app, Hb.
Qed.

Lemma base_name_no_dash F base :
  base_name F = Some base -> contains "-" base = false.
Proof.
  unfold base_name. destruct (contains "-" F) eqn:HF.
  - rewrite item0_split. intros [= <-]. apply before_first_no_sep.
  - intros [= <-]. by apply replace_from_no_new_char.
Qed.

(** The derivation raises no exception. *)
Lemma base_name_total F : exists base, base_name F = Some base.
Proof.
  unfold base_name. destruct (contains "-" F).
  - rewrite item0_split. eauto.
  - eauto.
Qed.

Lemma original_name_total F : exists name, original_name F = Some name.
Proof.
  unfold original_name. destruct (base_name_total F) as [base ->]. eauto.
Qed.

End StringFacts.

(* ===================================================================== *)
(** ** Facts about the byte operations *)
(* ===================================================================== *)

Section BytesFacts.

Implicit Types (b data sub p : list byte) (i j k lo hi pos : Z).

Lemma len_nonneg b : 0 <= len b.
Proof. unfold len. lia. Qed.

(** A slice with bounds that are not negative. *)
Lemma slice_nonneg b lo hi :
  0 <= lo -> lo <= hi ->
  slice b lo hi = take (Z.to_nat (hi - lo)) (drop (Z.to_nat lo) b).
Proof.
  intros Hlo Hhi. unfold slice, clamp.
  destruct (Z.ltb_spec lo 0) as [?|_]; [lia |].
  destruct (Z.ltb_spec hi 0) as [?|_]; [lia |].
  destruct (Z.le_gt_cases (len b) lo) as [Hout|Hin].
  - rewrite !drop_ge; [by rewrite !take_nil | unfold len in *; lia ..].
  - rewrite (Z.min_l lo) by lia.
    destruct (Z.le_gt_cases hi (len b)) as [Hh|Hh].
    + by rewrite Z.min_l by lia.
    + rewrite Z.min_r by lia.
      rewrite !take_ge; [done | rewrite length_drop; unfold len in *; lia ..].
Qed.

Lemma length_slice b lo hi :
  0 <= lo -> lo <= hi -> hi <= len b ->
  length (slice b lo hi) = Z.to_nat (hi - lo).
Proof.
  intros. rewrite slice_nonneg by lia.
  rewrite length_take, length_drop. unfold len in *. lia.
Qed.

Lemma slice_short b lo hi :
  0 <= lo -> lo < hi -> len b < hi ->
  (length (slice b lo hi) < Z.to_nat (hi - lo))%nat.
Proof.
  intros. rewrite slice_nonneg by lia.
  rewrite length_take, length_drop. unfold len in *. lia.
Qed.

Lemma startswith_take p b :
  startswith p b = true <-> take (length p) b = p.
Proof.
  revert b; induction p as [|x p IH]; intros [|y b]; simpl; try done.
  destruct (decide (x = y)) as [->|Hne].
  - rewrite IH. split; [by intros -> | by intros [= ->]].
  - split; [done | by intros [= ->]].
Qed.

(** An occurrence, said with [startswith]. *)
Lemma occurs_at_startswith sub data k :
  0 <= k ->
  occurs_at sub data k <-> startswith sub (drop (Z.to_nat k) data) = true.
Proof.
  intros Hk. unfold occurs_at.
  rewrite slice_nonneg by (pose proof (len_nonneg sub); lia).
  replace (Z.to_nat (k + len sub - k)) with (length sub)
    by (unfold len; lia).
  rewrite startswith_take. tauto.
Qed.

Lemma occurs_at_bound sub data k :
  0 < len sub -> occurs_at sub data k -> k + len sub <= len data.
Proof.
  intros Hsub [Hk Hs].
  destruct (Z.le_gt_cases (k + len sub) (len data)) as [?|Hgt]; [done |].
  pose proof (slice_short data k (k + len sub) Hk ltac:(lia) Hgt) as Hlt.
  rewrite Hs in Hlt. unfold len in *. lia.
Qed.

(** What the search answers: [-1] and no occurrence in what is left, or
    the index of the first one. *)
Lemma find_from_spec sub b i :
  0 <= i ->
  (find_from sub b i = -1 /\
     forall n : nat, startswith sub (drop n b) = false)
  \/ (exists n : nat,
        find_from sub b i = i + Z.of_nat n /\
        startswith sub (drop n b) = true /\
        forall m : nat, (m < n)%nat -> startswith sub (drop m b) = false).
Proof.
  revert i; induction b as [|x b IH]; intros i Hi; simpl.
  - destruct (startswith sub []) eqn:Hs.
    + right. exists 0%nat. rewrite Z.add_0_r. repeat split; [done | lia].
    + left. split; [done |]. intros n. by rewrite drop_nil.
  - destruct (startswith sub (x :: b)) eqn:Hs.
    + right. exists 0%nat. rewrite Z.add_0_r. repeat split; [done | lia].
    + destruct (IH (i + 1) ltac:(lia)) as [[Hf Hno]|(n & Hf & Hyes & Hno)].
      * left. split; [done |]. intros [|n]; [done | apply Hno].
      * right. exists (S n). split; [lia |]. split; [done |].
        intros [|m] Hm; [done | apply Hno; lia].
Qed.

Lemma find_nonneg_start sub data pos :
  0 <= pos -> pos <= len data ->
  find sub data pos = find_from sub (drop (Z.to_nat pos) data) pos.
Proof.
  intros H0 Hle. unfold find, clamp.
  destruct (Z.ltb_spec (len data) pos) as [?|_]; [lia |].
  destruct (Z.ltb_spec pos 0) as [?|_]; [lia |].
  by rewrite Z.min_l by lia.
Qed.

(** [find] answers [-1] or an index at or after the start. *)
Lemma find_range sub data pos :
  0 <= pos ->
  find sub data pos = -1 \/ pos <= find sub data pos.
Proof.
  intros H0. destruct (Z.le_gt_cases pos (len data)) as [Hle|Hgt].
  - rewrite find_nonneg_start by done.
    destruct (find_from_spec sub (drop (Z.to_nat pos) data) pos H0)
      as [[-> _]|(n & -> & _)]; [by left | right; lia].
  - left. unfold find. by destruct (Z.ltb_spec (len data) pos); [| lia].
Qed.

(** The answer is an occurrence, and the first one from [pos]. *)
Lemma find_found sub data pos k :
  0 <= pos -> find sub data pos = k -> k <> -1 ->
  pos <= k /\ occurs_at sub data k /\
  forall j, pos <= j < k -> ~ occurs_at sub data j.
Proof.
  intros H0 Hf Hk.
  destruct (Z.le_gt_cases pos (len data)) as [Hle|Hgt].
  - rewrite find_nonneg_start in Hf by done.
    destruct (find_from_spec sub (drop (Z.to_nat pos) data) pos H0)
      as [[Hm _]|(n & Hn & Hyes & Hno)]; [congruence |].
    subst k. rewrite Hn. clear Hk Hn. split; [lia |]. split.
    + apply occurs_at_startswith; [lia |].
      replace (Z.to_nat (pos + Z.of_nat n)) with (Z.to_nat pos + n)%nat by lia.
      by rewrite <- drop_drop.
    + intros j Hj Hocc. apply occurs_at_startswith in Hocc; [| lia].
      specialize (Hno (Z.to_nat (j - pos)) ltac:(lia)).
      rewrite drop_drop in Hno.
      replace (Z.to_nat pos + Z.to_nat (j - pos))%nat with (Z.to_nat j)
        in Hno by lia.
      congruence.
  - unfold find in Hf. destruct (Z.ltb_spec (len data) pos); [congruence | lia].
Qed.

(** Nothing found: no occurrence at or after [pos]. *)
Lemma find_absent sub data pos j :
  0 < len sub ->
  0 <= pos -> find sub data pos = -1 -> pos <= j -> ~ occurs_at sub data j.
Proof.
  intros Hsub H0 Hf Hj Hocc.
  pose proof (occurs_at_bound _ _ _ Hsub Hocc) as Hb.
  rewrite find_nonneg_start in Hf by lia.
  destruct (find_from_spec sub (drop (Z.to_nat pos) data) pos H0)
    as [[_ Hno]|(n & Hn & _)]; [| lia].
  apply occurs_at_startswith in Hocc; [| lia].
  specialize (Hno (Z.to_nat (j - pos))).
  rewrite drop_drop in Hno.
  replace (Z.to_nat pos + Z.to_nat (j - pos))%nat with (Z.to_nat j)
    in Hno by lia.
  congruence.
Qed.

(** An occurrence at or after [pos] is found, or an earlier one is. *)
Lemma find_finds sub data pos j :
  0 < len sub ->
  0 <= pos -> pos <= j -> occurs_at sub data j ->
  pos <= find sub data pos <= j.
Proof.
  intros Hsub H0 Hj Hocc.
  destruct (Z.eq_dec (find sub data pos) (-1)) as [Hm|Hm].
  - by destruct (find_absent sub data pos j Hsub H0 Hm Hj).
  - destruct (find_found sub data pos _ H0 eq_refl Hm) as (Hle & _ & Hfirst).
    split; [done |].
    destruct (Z.le_gt_cases (find sub data pos) j) as [?|Hgt]; [done |].
    destruct (Hfirst j ltac:(lia) Hocc).
Qed.

(** The four bytes of the size field, least significant first. *)
Lemma byte_val_range (x : byte) : 0 <= byte_val x < 256.
Proof.
  unfold byte_val. pose proof (Byte.to_N_bounded x). lia.
Qed.

(** [lor] of a number below [2^n] and a multiple of [2^n] is their sum. *)
Lemma lor_low_high (a c n : Z) :
  0 <= n -> 0 <= a < 2 ^ n -> Z.lor a (c * 2 ^ n) = a + c * 2 ^ n.
Proof.
  intros Hn Ha. symmetry. apply Z.add_nocarry_lor.
  apply Z.bits_inj'. intros m Hm. rewrite Z.land_spec, Z.bits_0.
  destruct (Z.lt_ge_cases m n) as [Hlt|Hge].
  - rewrite Z.mul_pow2_bits_low by lia. apply andb_false_r.
  - destruct (Z.eq_dec a 0) as [->|Hne]; [by rewrite Z.bits_0 |].
    rewrite (Z.bits_above_log2 a m); [done | lia |].
    assert (Z.log2 a < n) by (apply Z.log2_lt_pow2; lia). lia.
Qed.

Lemma unpack_u32_le_value (b0 b1 b2 b3 : byte) :
  unpack_u32_le [b0; b1; b2; b3]
  = Some (byte_val b0 + 256 * byte_val b1 + 256 ^ 2 * byte_val b2
          + 256 ^ 3 * byte_val b3).
Proof.
  unfold unpack_u32_le. f_equal.
  pose proof (byte_val_range b0). pose proof (byte_val_range b1).
  pose proof (byte_val_range b2). pose proof (byte_val_range b3).
  rewrite !Z.shiftl_mul_pow2 by lia.
  rewrite (lor_low_high (byte_val b2 * 2 ^ 16) (byte_val b3) 24) by lia.
  replace (byte_val b2 * 2 ^ 16 + byte_val b3 * 2 ^ 24)
    with ((byte_val b2 + byte_val b3 * 2 ^ 8) * 2 ^ 16) by lia.
  rewrite (lor_low_high (byte_val b1 * 2 ^ 8) _ 16) by lia.
  replace (byte_val b1 * 2 ^ 8 + (byte_val b2 + byte_val b3 * 2 ^ 8) * 2 ^ 16)
    with ((byte_val b1 + byte_val b2 * 2 ^ 8 + byte_val b3 * 2 ^ 16) * 2 ^ 8)
    by lia.
  rewrite (lor_low_high (byte_val b0) _ 8) by lia.
  lia.
Qed.

Lemma unpack_u32_le_range b v :
  unpack_u32_le b = Some v -> 0 <= v < 2 ^ 32.
Proof.
  destruct b as [|b0 [|b1 [|b2 [|b3 [|? ?]]]]]; try done.
  rewrite unpack_u32_le_value. intros [= <-].
  pose proof (byte_val_range b0). pose proof (byte_val_range b1).
  pose proof (byte_val_range b2). pose proof (byte_val_range b3).
  lia.
Qed.

Lemma unpack_u32_le_length b :
  is_Some (unpack_u32_le b) <-> length b = 4%nat.
Proof.
  destruct b as [|b0 [|b1 [|b2 [|b3 [|? ?]]]]]; simpl;
    (split; [intros [? ?]; done | intros; by eauto || done]).
Qed.

End BytesFacts.

(* ===================================================================== *)
(** ** One pass of the loop *)
(* ===================================================================== *)

Section Loop.

Variables (ctex_path output_dir : Path) (data : list byte).

Implicit Types (j k pos size : Z) (fs : FileSystem).

Lemma len_webp_sig : len webp_sig = 4.
Proof. reflexivity. Qed.

Lemma occurs_at_sig k :
  occurs_at webp_sig data k <-> 0 <= k /\ slice data k (k + 4) = webp_sig.
Proof. unfold occurs_at. by rewrite len_webp_sig. Qed.

(** Four bytes are there to decode when the header is inside the
    buffer. *)
Lemma declared_size_some k :
  0 <= k -> k + 8 <= len data ->
  exists size, declared_size data k = Some size.
Proof.
  intros Hk Hlen. apply unpack_u32_le_length.
  rewrite length_slice by lia. lia.
Qed.

(** A slice equal to the tag lies inside the buffer. *)
Lemma tag_inside k :
  0 <= k -> slice data (k + 8) (k + 12) = webp_tag -> k + 12 <= len data.
Proof.
  intros Hk Htag.
  destruct (Z.le_gt_cases (k + 12) (len data)) as [?|Hgt]; [done |].
  pose proof (slice_short data (k + 8) (k + 12) ltac:(lia) ltac:(lia) Hgt) as Hs.
  rewrite Htag in Hs. simpl in Hs. lia.
Qed.

(** The checks of the loop body say that a frame is well formed. *)
Lemma well_formed_frame_checks k size :
  well_formed_frame data k size
  <-> occurs_at webp_sig data k
      /\ frame_ok data k = true
      /\ declared_size data k = Some size.
Proof.
  unfold well_formed_frame, frame_ok, declared_size.
  rewrite occurs_at_sig. split.
  - intros (Hk & Hsig & Hsize & Htag & Hend).
    pose proof (tag_inside k Hk Htag).
    rewrite Hsize, !andb_true_iff, bool_decide_eq_true, !Z.leb_le.
    split_and!; try done; lia.
  - intros ((Hk & Hsig) & Hok & Hsize). rewrite Hsize in Hok.
    rewrite !andb_true_iff, bool_decide_eq_true, !Z.leb_le in Hok.
    destruct Hok as [[_ Htag] Hend]. split_and!; try done; lia.
Qed.

Lemma frame_ok_well_formed k :
  occurs_at webp_sig data k -> frame_ok data k = true ->
  exists size, well_formed_frame data k size.
Proof.
  intros Hocc Hok.
  destruct (declared_size data k) as [size|] eqn:Hsize.
  - exists size. by apply well_formed_frame_checks.
  - unfold frame_ok in Hok. rewrite Hsize in Hok.
    by rewrite andb_false_r in Hok.
Qed.

(** No marker left: the loop is left by [break]. *)
Lemma loop_body_break pos fs :
  find webp_sig data pos = -1 ->
  loop_body ctex_path output_dir data pos fs = (inr Break, fs).
Proof. intros Hf. unfold loop_body. by rewrite Hf. Qed.

(** A candidate that fails a check: on to the next byte. *)
Lemma loop_body_reject pos k fs :
  find webp_sig data pos = k -> k <> -1 -> 0 <= k ->
  frame_ok data k = false ->
  loop_body ctex_path output_dir data pos fs = (inr (Continue (k + 1)), fs).
Proof.
  intros Hf Hk H0 Hok. unfold loop_body. rewrite Hf.
  destruct (Z.eqb_spec k (-1)) as [?|_]; [done |].
  unfold frame_ok in Hok.
  destruct (Z.leb_spec (k + 12) (len data)) as [Hlen|?]; [| done].
  destruct (bool_decide (slice data (k + 8) (k + 12) = webp_tag)); [| done].
  destruct (declared_size_some k H0 ltac:(lia)) as [size Hsize].
  rewrite Hsize in Hok. unfold declared_size in Hsize.
  unfold bind at 1. rewrite Hsize. simpl in *.
  by rewrite Hok.
Qed.

(** A candidate that passes the checks: its frame is written under the
    derived name. *)
Lemma loop_body_accept pos k size name fs :
  find webp_sig data pos = k -> k <> -1 ->
  frame_ok data k = true -> declared_size data k = Some size ->
  original_name (path_name ctex_path) = Some name ->
  loop_body ctex_path output_dir data pos fs
  = match save_frame (path_join output_dir name)
            (slice data k (k + size + 8)) fs with
    | (inl e, fs') => (inl e, fs')
    | (inr _, fs') =>
        (inr (Return (true, path_name (path_join output_dir name))), fs')
    end.
Proof.
  intros Hf Hk Hok Hsize Hname. unfold loop_body. rewrite Hf.
  destruct (Z.eqb_spec k (-1)) as [?|_]; [done |].
  unfold frame_ok in Hok. rewrite Hsize in Hok.
  apply andb_true_iff in Hok as [[Hlen Htag]%andb_true_iff Hend].
  rewrite Hlen, Htag. unfold declared_size in Hsize.
  unfold bind at 1. rewrite Hsize. cbn [or_raise ret]. rewrite Hend.
  unfold bind at 1. rewrite Hname. cbn [or_raise ret].
  unfold bind, write_file, save_frame, fs_with.
  by destruct (fs_denied fs !! path_join output_dir name).
Qed.

(** What a pass can do, by the answer of [find] and the checks. *)
Lemma loop_body_cases pos fs :
  0 <= pos ->
  (find webp_sig data pos = -1
     /\ loop_body ctex_path output_dir data pos fs = (inr Break, fs))
  \/ (exists k,
        find webp_sig data pos = k /\ pos <= k /\ k + 4 <= len data
        /\ occurs_at webp_sig data k
        /\ frame_ok data k = false
        /\ loop_body ctex_path output_dir data pos fs
           = (inr (Continue (k + 1)), fs))
  \/ (exists k size name,
        find webp_sig data pos = k /\ pos <= k
        /\ well_formed_frame data k size
        /\ original_name (path_name ctex_path) = Some name
        /\ loop_body ctex_path output_dir data pos fs
           = match save_frame (path_join output_dir name)
                     (slice data k (k + size + 8)) fs with
             | (inl e, fs') => (inl e, fs')
             | (inr _, fs') =>
                 (inr (Return (true, path_name (path_join output_dir name))),
                  fs')
             end).
Proof.
  intros H0.
  destruct (Z.eq_dec (find webp_sig data pos) (-1)) as [Hm|Hm].
  { left. split; [done | by apply loop_body_break]. }
  destruct (find_found webp_sig data pos _ H0 eq_refl Hm) as (Hle & Hocc & _).
  pose proof (occurs_at_bound _ _ _ ltac:(by rewrite len_webp_sig) Hocc) as Hb.
  rewrite len_webp_sig in Hb.
  destruct (frame_ok data (find webp_sig data pos)) eqn:Hok.
  - right; right.
    destruct (frame_ok_well_formed _ Hocc Hok) as [size Hwf].
    destruct (original_name_total (path_name ctex_path)) as [name Hname].
    exists (find webp_sig data pos), size, name.
    split_and!; try done.
    apply well_formed_frame_checks in Hwf as (_ & _ & Hsize).
    by apply loop_body_accept.
  - right; left. exists (find webp_sig data pos).
    split_and!; try done.
    apply loop_body_reject; try done. lia.
Qed.

(** A pass that returns has written a frame that lies inside the
    buffer, at the offset [find] answered. *)
Lemma loop_body_return_inv pos fs r fs' :
  0 <= pos ->
  loop_body ctex_path output_dir data pos fs = (inr (Return r), fs') ->
  exists k size name,
    find webp_sig data pos = k /\ pos <= k
    /\ well_formed_frame data k size
    /\ original_name (path_name ctex_path) = Some name
    /\ fs_denied fs !! path_join output_dir name = None
    /\ r = (true, path_name (path_join output_dir name))
    /\ fs' = fs_with (path_join output_dir name)
               (slice data k (k + 8 + size)) fs.
Proof.
  intros H0 Hbody.
  destruct (loop_body_cases pos fs H0)
    as [[_ Hb]|[(k & _ & _ & _ & _ & _ & Hb)
               |(k & size & name & Hf & Hle & Hwf & Hname & Hb)]];
    rewrite Hb in Hbody; try done.
  exists k, size, name. unfold save_frame in Hbody.
  destruct (fs_denied fs !! path_join output_dir name) eqn:Hden; [done |].
  injection Hbody as <- <-.
  replace (k + 8 + size) with (k + size + 8) by lia.
  by split_and!.
Qed.

(* ------------------------------------------------------------------- *)
(** ** The whole loop *)
(* ------------------------------------------------------------------- *)

(** From a rejected candidate the loop goes on one byte further. *)
Lemma while_loop_reject fuel pos k fs :
  find webp_sig data pos = k -> k <> -1 -> 0 <= k ->
  frame_ok data k = false ->
  while_loop (S fuel) ctex_path output_dir data pos fs
  = while_loop fuel ctex_path output_dir data (k + 1) fs.
Proof.
  intros Hf Hk H0 Hok. cbn [while_loop]. unfold bind at 1.
  by rewrite (loop_body_reject pos k fs Hf Hk H0 Hok).
Qed.

(** The first well-formed frame from [pos] on is the one written. *)
Lemma while_loop_first_frame fuel pos k size name fs :
  0 <= pos -> first_frame data pos k size ->
  original_name (path_name ctex_path) = Some name ->
  (Z.to_nat (k - pos) < fuel)%nat ->
  while_loop fuel ctex_path output_dir data pos fs
  = save_frame (path_join output_dir name) (slice data k (k + 8 + size)) fs.
Proof.
  revert pos. induction fuel as [|fuel IH]; intros pos H0 Hfirst Hname Hfuel;
    [lia |].
  destruct Hfirst as (Hle & Hwf & Hbefore).
  pose proof Hwf as (Hocc & Hok & Hsize)%well_formed_frame_checks.
  pose proof (find_finds webp_sig data pos k
                ltac:(by rewrite len_webp_sig) H0 Hle Hocc) as Hrange.
  assert (find webp_sig data pos <> -1) as Hm by lia.
  destruct (find_found webp_sig data pos _ H0 eq_refl Hm) as (_ & Hocc' & _).
  destruct (Z.eq_dec (find webp_sig data pos) k) as [Heq|Hne].
  - cbn [while_loop]. unfold bind at 1.
    rewrite (loop_body_accept pos k size name fs Heq ltac:(lia) Hok Hsize Hname).
    replace (k + size + 8) with (k + 8 + size) by lia.
    unfold save_frame.
    by destruct (fs_denied fs !! path_join output_dir name).
  - set (c := find webp_sig data pos) in *.
    assert (frame_ok data c = false) as Hbad.
    { destruct (frame_ok data c) eqn:Hc; [| done].
      destruct (frame_ok_well_formed c Hocc' Hc) as [size' Hwf'].
      destruct (Hbefore c size' ltac:(lia) Hwf'). }
    rewrite (while_loop_reject fuel pos c fs eq_refl Hm ltac:(lia) Hbad).
    apply IH; [lia | | done | lia].
    split; [lia |]. split; [done |].
    intros j size' Hj. apply Hbefore. lia.
Qed.

(** No well-formed frame from [pos] on: the loop ends by [break] and
    the file system is as before. *)
Lemma while_loop_no_frame fuel pos fs :
  0 <= pos ->
  (forall j size, pos <= j -> ~ well_formed_frame data j size) ->
  (Z.to_nat (len data - pos) < fuel)%nat ->
  while_loop fuel ctex_path output_dir data pos fs = (inr (Some Broke), fs).
Proof.
  revert pos. induction fuel as [|fuel IH]; intros pos H0 Hnone Hfuel; [lia |].
  destruct (loop_body_cases pos fs H0)
    as [[_ Hb]|[(k & Hf & Hle & Hin & Hocc & Hok & Hb)
               |(k & size & name & _ & Hle & Hwf & _)]].
  - cbn [while_loop]. unfold bind at 1. by rewrite Hb.
  - cbn [while_loop]. unfold bind at 1. rewrite Hb.
    apply IH; [lia | | lia].
    intros j size Hj. apply Hnone. lia.
  - destruct (Hnone k size Hle Hwf).
Qed.

(** The passes are never used up: each pass that goes on moves the
    position forward, and the position stays inside the buffer. *)
Lemma while_loop_enough_fuel fuel pos fs :
  0 <= pos -> (Z.to_nat (len data - pos) < fuel)%nat ->
  forall fs',
    while_loop fuel ctex_path output_dir data pos fs <> (inr None, fs').
Proof.
  revert pos. induction fuel as [|fuel IH]; intros pos H0 Hfuel fs'; [lia |].
  destruct (loop_body_cases pos fs H0)
    as [[_ Hb]|[(k & Hf & Hle & Hin & Hocc & Hok & Hb)
               |(k & size & name & _ & Hle & Hwf & _ & Hb)]];
    cbn [while_loop]; unfold bind at 1; rewrite Hb.
  - done.
  - apply IH; lia.
  - unfold save_frame.
    by destruct (fs_denied fs !! path_join output_dir name).
Qed.

End Loop.

(* ===================================================================== *)
(** ** The scan without the checks *)
(* ===================================================================== *)

Section Scan.

Variable data : list byte.

Implicit Types (j k pos : Z).

Lemma scan_unfold fuel pos :
  scan (S fuel) data pos
  = if find webp_sig data pos =? -1 then []
    else find webp_sig data pos :: scan fuel data (find webp_sig data pos + 1).
Proof. reflexivity. Qed.

(** With enough calls the scan yields the occurrences from [pos] on,
    all of them, each once, in increasing order. *)
Lemma scan_spec fuel pos :
  0 <= pos -> (Z.to_nat (len data - pos) < fuel)%nat ->
  StronglySorted Z.lt (scan fuel data pos)
  /\ forall k, k ∈ scan fuel data pos <-> pos <= k /\ occurs_at webp_sig data k.
Proof.
  assert (0 < len webp_sig) as Hsig by done.
  revert pos. induction fuel as [|fuel IH]; intros pos H0 Hfuel; [lia |].
  rewrite scan_unfold.
  destruct (Z.eqb_spec (find webp_sig data pos) (-1)) as [Hm|Hm].
  - split; [constructor |]. intros k. split; [by intros ?%elem_of_nil |].
    intros [Hle Hocc]. by destruct (find_absent _ _ _ k Hsig H0 Hm Hle).
  - destruct (find_found webp_sig data pos _ H0 eq_refl Hm)
      as (Hle & Hocc & Hfirst).
    pose proof (occurs_at_bound _ _ _ Hsig Hocc) as Hb.
    set (c := find webp_sig data pos) in *.
    destruct (IH (c + 1) ltac:(lia) ltac:(lia)) as [Hsorted Hmem].
    split.
    + constructor; [done |]. apply Forall_forall. intros k Hk.
      apply Hmem in Hk. lia.
    + intros k. rewrite elem_of_cons, Hmem. split.
      * intros [->|[Hk Hock]]; [done | split; [lia | done]].
      * intros [Hk Hock].
        destruct (Z.eq_dec k c) as [?|Hne]; [by left | right].
        split; [| done].
        destruct (Z.lt_ge_cases k c) as [Hlt|?]; [| lia].
        destruct (Hfirst k ltac:(lia) Hock).
Qed.

(** More calls than needed change nothing. *)
Lemma scan_fuel fuel fuel' pos :
  0 <= pos ->
  (Z.to_nat (len data - pos) < fuel)%nat ->
  (Z.to_nat (len data - pos) < fuel')%nat ->
  scan fuel data pos = scan fuel' data pos.
Proof.
  assert (0 < len webp_sig) as Hsig by done.
  revert fuel' pos. induction fuel as [|fuel IH];
    intros [|fuel'] pos H0 Hfuel Hfuel'; try lia.
  rewrite !scan_unfold.
  destruct (Z.eqb_spec (find webp_sig data pos) (-1)) as [Hm|Hm]; [done |].
  destruct (find_found webp_sig data pos _ H0 eq_refl Hm) as (Hle & Hocc & _).
  pose proof (occurs_at_bound _ _ _ Hsig Hocc) as Hb.
  f_equal. apply IH; lia.
Qed.

Lemma candidates_spec pos :
  0 <= pos ->
  StronglySorted Z.lt (candidates data pos)
  /\ forall k, k ∈ candidates data pos <-> pos <= k /\ occurs_at webp_sig data k.
Proof.
  intros H0. apply scan_spec; [done |].
  pose proof (len_nonneg data). unfold len in *. lia.
Qed.

(** The loop body asks for the head of the scan, and goes on with the
    rest of it. *)
Lemma candidates_step pos :
  0 <= pos ->
  candidates data pos
  = if find webp_sig data pos =? -1 then []
    else find webp_sig data pos :: candidates data (find webp_sig data pos + 1).
Proof.
  assert (0 < len webp_sig) as Hsig by done.
  intros H0. unfold candidates at 1. rewrite scan_unfold.
  destruct (Z.eqb_spec (find webp_sig data pos) (-1)) as [Hm|Hm]; [done |].
  destruct (find_found webp_sig data pos _ H0 eq_refl Hm) as (Hle & Hocc & _).
  pose proof (occurs_at_bound _ _ _ Hsig Hocc) as Hb.
  f_equal. apply scan_fuel; unfold len in *; lia.
Qed.

End Scan.

(* ===================================================================== *)
(** ** [extract_webp_from_ctex] as a whole *)
(* ===================================================================== *)

Section Extract.

Variables (ctex_path output_dir : Path).

Implicit Types (data : list byte) (j k pos size : Z) (fs : FileSystem).

(** After a successful read the result is that of the loop. *)
Lemma extract_after_read fs data :
  fs_denied fs !! ctex_path = None ->
  fs_files fs !! ctex_path = Some data ->
  extract_webp_from_ctex ctex_path output_dir fs
  = match while_loop (S (length data)) ctex_path output_dir data 0 fs with
    | (inl e, fs') => Some ((false, str_exn e), fs')
    | (inr None, _) => None
    | (inr (Some (Returned result)), fs') => Some (result, fs')
    | (inr (Some Broke), fs') => Some ((false, not_found_msg), fs')
    end.
Proof.
  intros Hden Hfile.
  unfold extract_webp_from_ctex, extract_try, bind, read_file.
  rewrite Hden, Hfile.
  destruct (while_loop _ _ _ _ _ _) as [[e|[[r|]|]] fs']; done.
Qed.

(** A failed read: the error text is the result, nothing is written. *)
Lemma extract_read_fails fs :
  fs_denied fs !! ctex_path <> None \/ fs_files fs !! ctex_path = None ->
  exists msg,
    extract_webp_from_ctex ctex_path output_dir fs = Some ((false, msg), fs).
Proof.
  intros Hread.
  unfold extract_webp_from_ctex, extract_try, bind, read_file.
  destruct (fs_denied fs !! ctex_path) as [msg|]; [by eexists |].
  destruct Hread as [? | Hnone]; [done | rewrite Hnone; by eexists].
Qed.

(** Without a well-formed frame in the buffer: the not-found result,
    nothing written. *)
Lemma extract_no_frame fs data :
  fs_denied fs !! ctex_path = None ->
  fs_files fs !! ctex_path = Some data ->
  (forall k size, ~ well_formed_frame data k size) ->
  extract_webp_from_ctex ctex_path output_dir fs
  = Some ((false, not_found_msg), fs).
Proof.
  intros Hden Hfile Hno.
  rewrite (extract_after_read fs data Hden Hfile).
  rewrite (while_loop_no_frame ctex_path output_dir data (S (length data)) 0 fs);
    [done | lia | | unfold len; lia].
  intros j size _. apply Hno.
Qed.

(** The function always answers with a result pair. *)
Lemma extract_total fs :
  exists r fs', extract_webp_from_ctex ctex_path output_dir fs = Some (r, fs').
Proof.
  destruct (fs_denied fs !! ctex_path) as [msg|] eqn:Hden.
  { destruct (extract_read_fails fs) as [m ->]; [left; congruence | eauto]. }
  destruct (fs_files fs !! ctex_path) as [data|] eqn:Hfile.
  2: { destruct (extract_read_fails fs) as [m ->]; [by right | eauto]. }
  rewrite (extract_after_read fs data Hden Hfile).
  pose proof (while_loop_enough_fuel ctex_path output_dir data
                (S (length data)) 0 fs ltac:(lia)
                ltac:(unfold len; lia)) as Hfuel.
  destruct (while_loop _ _ _ _ _ _) as [[e|[[r|]|]] fs'] eqn:Hloop; eauto.
  by destruct (Hfuel fs').
Qed.

End Extract.

(* ===================================================================== *)
(** ** The properties of the extraction *)
(* ===================================================================== *)

Lemma path_name_join (dir : Path) (name : string) :
  name <> "" -> name <> "." -> path_name (path_join dir name) = name.
Proof.
  intros H1 H2. unfold path_join, path_name.
  rewrite bool_decide_eq_false_2 by (intros [?|?]; done).
  by rewrite last_snoc.
Qed.

Lemma first_frame_sample : first_frame sample_data 0 12 6.
Proof.
  split; [lia |]. split.
  - unfold well_formed_frame. split_and!; try reflexivity; try lia.
    vm_compute. discriminate.
  - intros j size' Hj (_ & Hsig & Hsize & _ & Hend).
    assert (j = 0 \/ j = 1 \/ j = 2 \/ j = 3 \/ j = 4 \/ j = 5 \/ j = 6 \/ j = 7
            \/ j = 8 \/ j = 9 \/ j = 10 \/ j = 11) as Hcases by lia.
    destruct Hcases as [->|Hcases].
    + vm_compute in Hsize. injection Hsize as <-.
      vm_compute in Hend. by apply Hend.
    + repeat (destruct Hcases as [->|Hcases]; [by vm_compute in Hsig |]).
      subst j. by vm_compute in Hsig.
Qed.

(** C1. When the container is read and [k] is the first offset, scanning
    forward from 0, at which a well-formed frame lies (marker, size field,
    type tag, the whole frame inside the buffer), the extraction succeeds,
    the file written under the derived name holds exactly
    [data[k : k+8+size]] (which is [8 + size] bytes long), and no other file
    is touched: the loop returns at this frame and looks no further. *)
Theorem extract_first_frame (ctex_path output_dir : Path) (fs : FileSystem)
    (data : list byte) (k size : Z) (name : string) :
  fs_denied fs !! ctex_path = None ->
  fs_files fs !! ctex_path = Some data ->
  first_frame data 0 k size ->
  original_name (path_name ctex_path) = Some name ->
  fs_denied fs !! path_join output_dir name = None ->
  exists fs',
    extract_webp_from_ctex ctex_path output_dir fs
    = Some ((true, path_name (path_join output_dir name)), fs')
    /\ fs_files fs' !! path_join output_dir name
       = Some (slice data k (k + 8 + size))
    /\ length (slice data k (k + 8 + size)) = Z.to_nat (8 + size)
    /\ (forall p, p <> path_join output_dir name ->
          fs_files fs' !! p = fs_files fs !! p)
    /\ fs_denied fs' = fs_denied fs.
Proof.
  intros Hden Hfile Hfirst Hname Hout.
  pose proof Hfirst as (Hk & (H0 & _ & Hsize & Htag & Hend) & _).
  pose proof (tag_inside data k H0 Htag) as Hin.
  pose proof (unpack_u32_le_range _ _ Hsize) as Hrange.
  rewrite (extract_after_read ctex_path output_dir fs data Hden Hfile).
  rewrite (while_loop_first_frame ctex_path output_dir data
             (S (length data)) 0 k size name fs ltac:(lia) Hfirst Hname
             ltac:(unfold len in *; lia)).
  unfold save_frame. rewrite Hout.
  eexists. split; [reflexivity |]. cbn [fs_with fs_files fs_denied].
  split_and!.
  - apply lookup_insert_eq.
  - rewrite length_slice by lia. lia.
  - intros p Hp. by apply lookup_insert_ne.
  - done.
Qed.

Lemma extract_first_frame_witness :
  exists fs',
    extract_webp_from_ctex sample_path sample_out sample_fs
    = Some ((true, "icon.png"), fs')
    /\ fs_files fs' !! ["extracted_images"; "icon.png"]
       = Some (slice sample_data 12 26).
Proof.
  destruct (extract_first_frame sample_path sample_out sample_fs sample_data
              12 6 "icon.png" eq_refl eq_refl first_frame_sample eq_refl eq_refl)
    as (fs' & Hres & Hfile & _).
  exists fs'. split; [exact Hres | exact Hfile].
Defined.

(** C2. A candidate that [find] yields is rejected, and the loop goes on
    at exactly [offset + 1], if fewer than 12 bytes are left from it, or the
    bytes at [offset+8 .. offset+12] are not the type tag, or
    [offset + 8 + declared_size] is beyond the buffer; a pass that returns
    has written a frame with [offset + 8 + declared_size <= len(data)]; and
    the first well-formed frame behind the rejected candidate is the one
    that is written. *)
Theorem rejected_candidate (ctex_path output_dir : Path) (data : list byte)
    (pos k : Z) (fs : FileSystem) :
  0 <= pos ->
  find webp_sig data pos = k -> k <> -1 ->
  (len data < k + 12
   \/ slice data (k + 8) (k + 12) <> webp_tag
   \/ exists size, declared_size data k = Some size /\ len data < k + 8 + size) ->
  loop_body ctex_path output_dir data pos fs = (inr (Continue (k + 1)), fs)
  /\ (forall fuel,
        while_loop (S fuel) ctex_path output_dir data pos fs
        = while_loop fuel ctex_path output_dir data (k + 1) fs)
  /\ (forall k' size' name,
        first_frame data (k + 1) k' size' ->
        original_name (path_name ctex_path) = Some name ->
        fs_denied fs !! path_join output_dir name = None ->
        while_loop (S (length data)) ctex_path output_dir data pos fs
        = (inr (Some (Returned (true, path_name (path_join output_dir name)))),
           fs_with (path_join output_dir name)
             (slice data k' (k' + 8 + size')) fs))
  /\ (forall pos0 fs0 r fs',
        0 <= pos0 ->
        loop_body ctex_path output_dir data pos0 fs0 = (inr (Return r), fs') ->
        exists k0 size0 output_path,
          find webp_sig data pos0 = k0
          /\ declared_size data k0 = Some size0
          /\ k0 + 8 + size0 <= len data
          /\ fs' = fs_with output_path (slice data k0 (k0 + 8 + size0)) fs0).
Proof.
  intros H0 Hf Hk Hrej.
  destruct (find_found webp_sig data pos k H0 Hf Hk) as (Hle & Hocc & _).
  assert (frame_ok data k = false) as Hbad.
  { unfold frame_ok. destruct Hrej as [Hshort|[Htag|(size & Hsize & Hover)]].
    - by destruct (Z.leb_spec (k + 12) (len data)); [lia |].
    - by rewrite (bool_decide_eq_false_2 _ Htag), andb_false_r.
    - rewrite Hsize. destruct (Z.leb_spec (k + size + 8) (len data)); [lia |].
      apply andb_false_r. }
  assert (forall fuel,
            while_loop (S fuel) ctex_path output_dir data pos fs
            = while_loop fuel ctex_path output_dir data (k + 1) fs) as Hstep.
  { intros fuel. apply while_loop_reject; [done | done | lia | done]. }
  split_and!.
  - apply loop_body_reject; [done | done | lia | done].
  - exact Hstep.
  - intros k' size' name Hfirst Hname Hout.
    pose proof Hfirst as (Hk' & (_ & _ & _ & Htag & _) & _).
    pose proof (tag_inside data k' ltac:(lia) Htag).
    rewrite Hstep.
    rewrite (while_loop_first_frame ctex_path output_dir data (length data)
               (k + 1) k' size' name fs ltac:(lia) Hfirst Hname
               ltac:(unfold len in *; lia)).
    unfold save_frame. by rewrite Hout.
  - intros pos0 fs0 r fs' Hpos0 Hret.
    destruct (loop_body_return_inv ctex_path output_dir data pos0 fs0 r fs'
                Hpos0 Hret)
      as (k0 & size0 & name & Hf0 & _ & Hwf & _ & _ & _ & ->).
    pose proof Hwf as (_ & _ & Hsize0)%well_formed_frame_checks.
    destruct Hwf as (_ & _ & _ & _ & Hend).
    exists k0, size0, (path_join output_dir name). by split_and!.
Qed.

Lemma rejected_candidate_witness :
  loop_body sample_path sample_out sample_data 0 sample_fs
  = (inr (Continue 1), sample_fs)
  /\ while_loop (S (length sample_data)) sample_path sample_out sample_data 0
       sample_fs
     = (inr (Some (Returned (true, "icon.png"))),
        fs_with ["extracted_images"; "icon.png"] (slice sample_data 12 26)
          sample_fs).
Proof.
  assert (first_frame sample_data (0 + 1) 12 6) as Hfirst.
  { destruct first_frame_sample as (_ & Hwf & Hno).
    split; [lia |]. split; [exact Hwf |].
    intros j size' Hj. apply Hno. lia. }
  destruct (rejected_candidate sample_path sample_out sample_data 0 0
              sample_fs ltac:(lia) eq_refl ltac:(lia))
    as (Hbody & _ & Hlater & _).
  - right; right. exists 100. split; [reflexivity | vm_compute; reflexivity].
  - split; [exact Hbody |].
    exact (Hlater 12 6 "icon.png" Hfirst eq_refl eq_refl).
Defined.

(** C5. When the container is read and no offset holds a well-formed frame
    (in particular when the marker occurs nowhere), the result is the
    failure with the not-found message of line 108, and the file system is
    left as it was: nothing is written. *)
Theorem extract_not_found (ctex_path output_dir : Path) (fs : FileSystem)
    (data : list byte) :
  fs_denied fs !! ctex_path = None ->
  fs_files fs !! ctex_path = Some data ->
  ((forall k, ~ occurs_at webp_sig data k)
   \/ (forall k size, ~ well_formed_frame data k size)) ->
  extract_webp_from_ctex ctex_path output_dir fs
  = Some ((false, not_found_msg), fs).
Proof.
  intros Hden Hfile Hnone.
  assert (forall k size, ~ well_formed_frame data k size) as Hno.
  { destruct Hnone as [Hocc|?]; [| done].
    intros k size (Hwf & _)%well_formed_frame_checks. by apply (Hocc k). }
  by apply (extract_no_frame ctex_path output_dir fs data).
Qed.

Lemma extract_not_found_witness :
  extract_webp_from_ctex sample_bad_path sample_out sample_fs
  = Some ((false, not_found_msg), sample_fs).
Proof.
  apply (extract_not_found sample_bad_path sample_out sample_fs sample_noise
           eq_refl eq_refl).
  left. intros k [Hk Hocc].
  pose proof (occurs_at_bound webp_sig sample_noise k ltac:(done)
                (conj Hk Hocc)) as Hb.
  change (len webp_sig) with 4 in *. change (len sample_noise) with 8 in Hb.
  assert (k = 0 \/ k = 1 \/ k = 2 \/ k = 3 \/ k = 4) as Hcases by lia.
  repeat (destruct Hcases as [->|Hcases]; [by vm_compute in Hocc |]).
  subst k. by vm_compute in Hocc.
Defined.

(** The bytes of a slice are the bytes of the buffer at its indexes. *)
Lemma slice_four (data : list byte) (lo : Z) :
  0 <= lo -> lo + 4 <= len data ->
  exists b0 b1 b2 b3,
    slice data lo (lo + 4) = [b0; b1; b2; b3]
    /\ data !! Z.to_nat lo = Some b0
    /\ data !! Z.to_nat (lo + 1) = Some b1
    /\ data !! Z.to_nat (lo + 2) = Some b2
    /\ data !! Z.to_nat (lo + 3) = Some b3.
Proof.
  intros H0 Hin.
  pose proof (length_slice data lo (lo + 4) H0 ltac:(lia) Hin) as Hlen.
  assert (forall i : nat, (i < 4)%nat ->
            slice data lo (lo + 4) !! i = data !! (Z.to_nat lo + i)%nat) as Hget.
  { intros i Hi. rewrite slice_nonneg by lia.
    rewrite lookup_take_lt by lia. apply lookup_drop. }
  destruct (slice data lo (lo + 4)) as [|b0 [|b1 [|b2 [|b3 [|? ?]]]]];
    try (simpl in Hlen; lia).
  exists b0, b1, b2, b3. split; [done |].
  pose proof (Hget 0%nat ltac:(lia)) as G0. pose proof (Hget 1%nat ltac:(lia)) as G1.
  pose proof (Hget 2%nat ltac:(lia)) as G2. pose proof (Hget 3%nat ltac:(lia)) as G3.
  simpl in G0, G1, G2, G3.
  replace (Z.to_nat (lo + 1)) with (Z.to_nat lo + 1)%nat by lia.
  replace (Z.to_nat (lo + 2)) with (Z.to_nat lo + 2)%nat by lia.
  replace (Z.to_nat (lo + 3)) with (Z.to_nat lo + 3)%nat by lia.
  rewrite Nat.add_0_r in G0. by split_and!.
Qed.



(** C9. The loop ends on every buffer.  A pass from the position [pos]
    raises, returns, breaks (exactly when no marker is left at or after
    [pos]) or goes on with a position that is greater than [pos] and at most
    [len(data)], leaving the file system alone; so [len(data) - pos + 1]
    passes are never used up, and [extract_webp_from_ctex] always yields a
    result pair. *)
Theorem scanning_terminates (ctex_path output_dir : Path) (data : list byte)
    (pos : Z) (fs : FileSystem) :
  0 <= pos ->
  (forall pos' fs',
     loop_body ctex_path output_dir data pos fs = (inr (Continue pos'), fs') ->
     pos < pos' <= len data /\ fs' = fs)
  /\ (loop_body ctex_path output_dir data pos fs = (inr Break, fs)
      <-> forall j, pos <= j -> ~ occurs_at webp_sig data j)
  /\ (forall fuel,
        (Z.to_nat (len data - pos) < fuel)%nat ->
        exists res fs',
          while_loop fuel ctex_path output_dir data pos fs = (res, fs')
          /\ res <> inr None)
  /\ (exists r fs',
        extract_webp_from_ctex ctex_path output_dir fs = Some (r, fs')).
Proof.
  intros H0. split_and!.
  - intros pos' fs' Hbody.
    destruct (loop_body_cases ctex_path output_dir data pos fs H0)
      as [[_ Hb]|[(k & _ & Hle & Hin & _ & _ & Hb)
                 |(k & size & name & _ & _ & _ & _ & Hb)]];
      rewrite Hb in Hbody.
    + done.
    + injection Hbody as <- <-. split; [lia | done].
    + by destruct (save_frame _ _ _) as [[?|?] ?].
  - split.
    + intros Hbody j Hj.
      destruct (loop_body_cases ctex_path output_dir data pos fs H0)
        as [[Hf _]|[(k & _ & _ & _ & _ & _ & Hb)
                   |(k & size & name & _ & _ & _ & _ & Hb)]].
      * by apply (find_absent webp_sig data pos j).
      * rewrite Hb in Hbody. done.
      * rewrite Hb in Hbody. by destruct (save_frame _ _ _) as [[?|?] ?].
    + intros Hnone. apply loop_body_break.
      destruct (Z.eq_dec (find webp_sig data pos) (-1)) as [?|Hm]; [done |].
      destruct (find_found webp_sig data pos _ H0 eq_refl Hm) as (Hle & Hocc & _).
      destruct (Hnone _ Hle Hocc).
  - intros fuel Hfuel.
    pose proof (while_loop_enough_fuel ctex_path output_dir data fuel pos fs
                  H0 Hfuel) as Hne.
    destruct (while_loop fuel ctex_path output_dir data pos fs)
      as [res fs'] eqn:Hloop.
    exists res, fs'. split; [done |]. intros ->. by apply (Hne fs').
  - apply extract_total.
Qed.

Lemma scanning_terminates_witness :
  exists res fs',
    while_loop (S (length sample_data)) sample_path sample_out sample_data 0
      sample_fs = (res, fs')
    /\ res <> inr None.
Proof.
  destruct (scanning_terminates sample_path sample_out sample_data 0 sample_fs
              ltac:(lia)) as (_ & _ & Hfuel & _).
  apply Hfuel. vm_compute. lia.
Defined.

(** C8. The offsets the scan yields from [pos] are strictly increasing;
    an offset is among them exactly when it is at or after [pos] and the
    four bytes there are the marker, whatever its alignment and whatever
    surrounds it; there are none when the marker does not occur from [pos]
    on; and the loop takes them in this order: a pass that goes on was at the
    head of the scan and goes on with the rest, a pass that breaks found the
    scan empty. *)
Theorem signature_scan (ctex_path output_dir : Path) (data : list byte)
    (pos : Z) :
  0 <= pos ->
  StronglySorted Z.lt (candidates data pos)
  /\ (forall k,
        k ∈ candidates data pos
        <-> pos <= k /\ slice data k (k + 4) = webp_sig)
  /\ ((forall k, pos <= k -> slice data k (k + 4) <> webp_sig) ->
      candidates data pos = [])
  /\ (forall fs pos' fs',
        loop_body ctex_path output_dir data pos fs = (inr (Continue pos'), fs') ->
        candidates data pos = (pos' - 1) :: candidates data pos')
  /\ (forall fs r fs',
        loop_body ctex_path output_dir data pos fs = (inr (Return r), fs') ->
        head (candidates data pos) = Some (find webp_sig data pos))
  /\ (forall fs fs',
        loop_body ctex_path output_dir data pos fs = (inr Break, fs') ->
        candidates data pos = []).
Proof.
  intros H0.
  destruct (candidates_spec data pos H0) as [Hsorted Hmem].
  assert (forall k,
            k ∈ candidates data pos
            <-> pos <= k /\ slice data k (k + 4) = webp_sig) as Hmem'.
  { intros k. rewrite Hmem, occurs_at_sig. split.
    - by intros (? & ? & ?).
    - intros [? ?]. split_and!; try done. lia. }
  split_and!; try done.
  - intros Hnone. destruct (candidates data pos) as [|k l]; [done |].
    destruct (proj1 (Hmem' k) ltac:(by left)) as [Hle Hsig].
    destruct (Hnone k Hle Hsig).
  - intros fs pos' fs' Hbody.
    destruct (loop_body_cases ctex_path output_dir data pos fs H0)
      as [[_ Hb]|[(k & Hf & Hle & _ & _ & _ & Hb)
                 |(k & size & name & _ & _ & _ & _ & Hb)]];
      rewrite Hb in Hbody.
    + done.
    + injection Hbody as <- <-. rewrite candidates_step by done. rewrite Hf.
      destruct (Z.eqb_spec k (-1)); [lia |]. f_equal. lia.
    + by destruct (save_frame _ _ _) as [[?|?] ?].
  - intros fs r fs' Hbody.
    destruct (loop_body_return_inv ctex_path output_dir data pos fs r fs'
                H0 Hbody) as (k & _ & _ & Hf & Hle & _).
    rewrite candidates_step by done. rewrite Hf.
    by destruct (Z.eqb_spec k (-1)); [lia |].
  - intros fs fs' Hbody.
    destruct (loop_body_cases ctex_path output_dir data pos fs H0)
      as [[Hf _]|[(k & _ & _ & _ & _ & _ & Hb)
                 |(k & size & name & _ & _ & _ & _ & Hb)]].
    + rewrite candidates_step by done. by rewrite Hf.
    + rewrite Hb in Hbody. done.
    + rewrite Hb in Hbody. by destruct (save_frame _ _ _) as [[?|?] ?].
Qed.

Lemma signature_scan_witness :
  candidates sample_data 0 = [0; 12]
  /\ StronglySorted Z.lt (candidates sample_data 0)
  /\ (12 ∈ candidates sample_data 0
      <-> 0 <= 12 /\ slice sample_data 12 (12 + 4) = webp_sig).
Proof.
  destruct (signature_scan sample_path sample_out sample_data 0 ltac:(lia))
    as (Hsorted & Hmem & _).
  split; [vm_compute; reflexivity |]. split; [exact Hsorted | exact (Hmem 12)].
Defined.

(* ===================================================================== *)
(** ** The batch *)
(* ===================================================================== *)

(** A write that is refused: the error text is the result and nothing is
    written. *)
Lemma extract_write_fails (ctex_path output_dir : Path) (fs : FileSystem)
    (data : list byte) (k size : Z) (name msg : string) :
  fs_denied fs !! ctex_path = None ->
  fs_files fs !! ctex_path = Some data ->
  first_frame data 0 k size ->
  original_name (path_name ctex_path) = Some name ->
  fs_denied fs !! path_join output_dir name = Some msg ->
  extract_webp_from_ctex ctex_path output_dir fs = Some ((false, msg), fs).
Proof.
  intros Hden Hfile Hfirst Hname Hout.
  pose proof Hfirst as (Hk & (H0 & _ & _ & Htag & _) & _).
  pose proof (tag_inside data k H0 Htag) as Hin.
  rewrite (extract_after_read ctex_path output_dir fs data Hden Hfile).
  rewrite (while_loop_first_frame ctex_path output_dir data
             (S (length data)) 0 k size name fs ltac:(lia) Hfirst Hname
             ltac:(unfold len in *; lia)).
  unfold save_frame. by rewrite Hout.
Qed.

Lemma count_ok_cons (ok : bool) (s : string) (rs : list (bool * string)) :
  count_ok ((ok, s) :: rs) = ((if ok then 1 else 0) + count_ok rs)%nat.
Proof.
  unfold count_ok. rewrite filter_cons. simpl.
  by destruct ok; case_decide.
Qed.

Lemma count_failed_cons (ok : bool) (s : string) (rs : list (bool * string)) :
  count_failed ((ok, s) :: rs) = ((if ok then 0 else 1) + count_failed rs)%nat.
Proof.
  unfold count_failed. rewrite filter_cons. simpl.
  by destruct ok; case_decide.
Qed.

(** The counting loop with any starting values of the accumulators. *)
Lemma extract_loop_spec (ctex_files : list Path) (output_dir : Path)
    (acc : counters) (fs : FileSystem) :
  exists rs acc' fs',
    results_of ctex_files output_dir fs = Some rs
    /\ extract_loop ctex_files output_dir acc fs = Some (acc', fs')
    /\ length rs = length ctex_files
    /\ success_count acc' = (success_count acc + count_ok rs)%nat
    /\ failed_count acc' = (failed_count acc + count_failed rs)%nat
    /\ failed_files acc' = (failed_files acc ++ failed_names ctex_files rs)%list.
Proof.
  revert acc fs. induction ctex_files as [|f files IH]; intros acc fs.
  - exists [], acc, fs. cbn. rewrite app_nil_r. split_and!; try done; lia.
  - cbn [results_of extract_loop].
    destruct (extract_total f output_dir fs) as ([ok s] & fs1 & ->).
    destruct ok.
    + destruct (IH {| success_count := S (success_count acc);
                      failed_count := failed_count acc;
                      failed_files := failed_files acc |} fs1)
        as (rs & acc' & fs' & -> & -> & Hlen & Hs & Hf & Hn).
      exists ((true, s) :: rs), acc', fs'.
      rewrite count_ok_cons, count_failed_cons. cbn in *.
      split_and!; try done; lia.
    + destruct (IH {| success_count := success_count acc;
                      failed_count := S (failed_count acc);
                      failed_files := (failed_files acc ++ [path_name f])%list |} fs1)
        as (rs & acc' & fs' & -> & -> & Hlen & Hs & Hf & Hn).
      exists ((false, s) :: rs), acc', fs'.
      rewrite count_ok_cons, count_failed_cons. cbn in *.
      rewrite <- app_assoc in Hn.
      split_and!; try done; lia.
Qed.

Lemma count_ok_failed (rs : list (bool * string)) :
  (count_ok rs + count_failed rs = length rs)%nat.
Proof.
  induction rs as [|[ok s] rs IH]; [done |].
  rewrite count_ok_cons, count_failed_cons. destruct ok; simpl; lia.
Qed.

Lemma length_failed_names (ctex_files : list Path) (rs : list (bool * string)) :
  length rs = length ctex_files ->
  length (failed_names ctex_files rs) = count_failed rs.
Proof.
  revert rs. induction ctex_files as [|f files IH]; intros [|[ok s] rs] Hlen;
    try done.
  rewrite count_failed_cons. cbn [failed_names].
  injection Hlen as Hlen. destruct ok; simpl; by rewrite IH.
Qed.



(* ===================================================================== *)
(** ** The derivation of the output name *)
(* ===================================================================== *)

Example original_name_sprite :
  original_name "sprite.png-ab12cd34.ctex" = Some "sprite.png".
Proof. reflexivity. Qed.

Example original_name_icon : original_name "icon-9f8e.ctex" = Some "icon.webp".
Proof. reflexivity. Qed.

Example original_name_noext : original_name "noext-xyz.ctex" = Some "noext.webp".
Proof. reflexivity. Qed.

(** With a ['-'] in the name the program and the specification agree. *)
Lemma original_name_with_dash (F : string) :
  PyStr.contains "-" F = true -> original_name F = Some (Spec.derive F).
Proof.
  intros HF. unfold original_name, base_name, Spec.derive, add_default_ext.
  rewrite HF, item0_split.
  by destruct (PyStr.contains "." (Spec.before_first "-" F)).
Qed.

(** C3. The program does not compute the derivation the claim words: on the
    name ["a.ctex.ctex"], which has no ['-'], taking the suffix [".ctex"] off
    leaves ["a.ctex"], while the program takes every [".ctex"] out and
    answers ["a.webp"].  (With a ['-'] in the name, and on the three names of
    the claim, the two agree.) *)
Theorem original_name_not_suffix_removal :
  PyStr.contains "-" "a.ctex.ctex" = false
  /\ Spec.derive "a.ctex.ctex" = "a.ctex"
  /\ original_name "a.ctex.ctex" = Some "a.webp"
  /\ original_name "sprite.png-ab12cd34.ctex"
     = Some (Spec.derive "sprite.png-ab12cd34.ctex")
  /\ original_name "icon-9f8e.ctex" = Some (Spec.derive "icon-9f8e.ctex")
  /\ original_name "noext-xyz.ctex" = Some (Spec.derive "noext-xyz.ctex").
Proof. by split_and!. Qed.

(** C4, as the claim states it, fails: the name derived from
    ["a.ctex-1.ctex"] is ["a.ctex"], and the name derived from that is
    ["a.webp"]. *)
Lemma original_name_not_idempotent :
  original_name "a.ctex-1.ctex" = Some "a.ctex"
  /\ original_name "a.ctex" = Some "a.webp"
  /\ ~ (forall F R, original_name F = Some R -> original_name R = Some R).
Proof.
  split; [reflexivity |]. split; [reflexivity |].
  intros Hidem. by specialize (Hidem "a.ctex-1.ctex" "a.ctex" eq_refl).
Qed.

(** C4, amended. The derivation is a function of the name alone, and it
    leaves its own result unchanged whenever that result contains no
    [".ctex"]. *)
Theorem original_name_idempotent (F R : string) :
  original_name F = Some R ->
  PyStr.contains ".ctex" R = false ->
  original_name R = Some R
  /\ forall G, G = F -> original_name G = Some R.
Proof.
  intros HF Hfree. split; [| by intros G ->].
  unfold original_name in HF.
  destruct (base_name F) as [base|] eqn:Hbase; [| done].
  injection HF as <-.
  pose proof (add_default_ext_no_dash base (base_name_no_dash F base Hbase))
    as Hdash.
  pose proof (add_default_ext_has_dot base) as Hdot.
  unfold original_name, base_name. rewrite Hdash.
  rewrite (replace_absent _ _ _ Hfree).
  unfold add_default_ext at 1. by rewrite Hdot.
Qed.

Lemma original_name_idempotent_witness :
  original_name "sprite.png" = Some "sprite.png"
  /\ forall G, G = "sprite.png-ab12cd34.ctex" ->
       original_name G = Some "sprite.png".
Proof.
  exact (original_name_idempotent "sprite.png-ab12cd34.ctex" "sprite.png"
           eq_refl eq_refl).
Defined.

(** C10. Without a ['-'] in the name every [".ctex"] is taken out, not
    only one at the end: a name free of it is kept as it is, and otherwise
    the leftmost one is cut out and the text behind it is treated in the
    same way. *)
Theorem ctex_removed_everywhere (F : string) :
  PyStr.contains "-" F = false ->
  base_name F = Some (PyStr.replace ".ctex" "" F)
  /\ (PyStr.contains ".ctex" F = false -> base_name F = Some F)
  /\ (forall a b,
        F = a +:+ ".ctex" +:+ b -> PyStr.contains ".ctex" a = false ->
        exists b', base_name b = Some b' /\ base_name F = Some (a +:+ b'))
  /\ (forall b, F = "a.ctex.b.ctex" +:+ b ->
        exists b', base_name b = Some b' /\ base_name F = Some ("a.b" +:+ b')).
Proof.
  intros HF.
  assert (base_name F = Some (PyStr.replace ".ctex" "" F)) as Hbase
    by (unfold base_name; by rewrite HF).
  assert (forall a b,
            F = a +:+ ".ctex" +:+ b -> PyStr.contains ".ctex" a = false ->
            exists b', base_name b = Some b' /\ base_name F = Some (a +:+ b'))
    as Hleft.
  { intros a b -> Ha.
    rewrite !contains_char_app in HF.
    apply orb_false_iff in HF as [_ [_ Hb]%orb_false_iff].
    exists (PyStr.replace ".ctex" "" b). split.
    - unfold base_name. by rewrite Hb.
    - rewrite Hbase. by rewrite replace_ctex_leftmost. }
  split_and!; try done.
  - intros Hfree. rewrite Hbase. by rewrite replace_absent.
  - intros b ->.
    assert (PyStr.contains "-" (".b.ctex" +:+ b) = false) as Hrest.
    { change ("a.ctex.b.ctex" +:+ b) with ("a.ctex" +:+ (".b.ctex" +:+ b)) in HF.
      rewrite contains_char_app in HF. by apply orb_false_iff in HF as [_ ?]. }
    assert (PyStr.contains "-" b = false) as Hb.
    { rewrite contains_char_app in Hrest. by apply orb_false_iff in Hrest as [_ ?]. }
    destruct (Hleft "a" (".b.ctex" +:+ b) eq_refl eq_refl) as (b1 & Hb1 & ->).
    unfold base_name in Hb1. rewrite Hrest in Hb1. injection Hb1 as <-.
    change (".b.ctex" +:+ b) with (".b" +:+ ".ctex" +:+ b).
    rewrite replace_ctex_leftmost by reflexivity.
    exists (PyStr.replace ".ctex" "" b). split.
    + unfold base_name. by rewrite Hb.
    + done.
Qed.

Lemma ctex_removed_everywhere_witness :
  base_name "a.ctex.b.ctex" = Some "a.b"
  /\ base_name "plain.png" = Some "plain.png".
Proof.
  destruct (ctex_removed_everywhere "a.ctex.b.ctex" eq_refl) as (Hbase & _).
  destruct (ctex_removed_everywhere "plain.png" eq_refl) as (_ & Hkeep & _).
  split; [exact Hbase | exact (Hkeep eq_refl)].
Defined.

(* ===================================================================== *)
(** ** [clean_filename] *)
(* ===================================================================== *)

Section CleanFilename.

Import PyStr.

Lemma string_map_ext (f g : ascii -> ascii) (s : string) :
  (forall c, f c = g c) -> string_map f s = string_map g s.
Proof. intros Hfg. induction s as [|c s IH]; simpl; [done | by rewrite Hfg, IH]. Qed.

Lemma string_map_id (s : string) : string_map (fun c => c) s = s.
Proof. induction s as [|c s IH]; simpl; [done | by rewrite IH]. Qed.

Lemma string_map_map (f g : ascii -> ascii) (s : string) :
  string_map f (string_map g s) = string_map (fun c => f (g c)) s.
Proof. induction s as [|c s IH]; simpl; [done | by rewrite IH]. Qed.

Lemma string_map_app (f : ascii -> ascii) (s t : string) :
  string_map f (s +:+ t) = string_map f s +:+ string_map f t.
Proof. induction s as [|c s IH]; simpl; [done | by rewrite IH]. Qed.

Lemma string_map_length (f : ascii -> ascii) (s : string) :
  String.length (string_map f s) = String.length s.
Proof. induction s as [|c s IH]; simpl; [done | by rewrite IH]. Qed.

Lemma string_map_get (f : ascii -> ascii) (s : string) (n : nat) :
  String.get n (string_map f s) = f <$> String.get n s.
Proof.
  revert n; induction s as [|c s IH]; intros [|n]; simpl; by try apply IH.
Qed.

(** Replacing one character by one character changes just the places
    where it stands. *)
Lemma replace_one_char (c d : ascii) (s : string) :
  replace (String c "") (String d "") s
  = string_map (fun x => if bool_decide (x = c) then d else x) s.
Proof.
  unfold replace. induction s as [|x s IH]; [done |].
  cbn [replace_from string_map].
  rewrite startswith_cons, startswith_nil, andb_true_r.
  destruct (decide (c = x)) as [->|Hne].
  - rewrite !bool_decide_eq_true_2 by done. cbn. by rewrite IH.
  - rewrite !bool_decide_eq_false_2 by congruence. by rewrite IH.
Qed.

(** Replacing the characters of [cs] one after the other by ['_'], which
    is not among them, is one pass over the text. *)
Lemma replace_chars_fold (cs : list ascii) (s : string) :
  "_"%char ∉ cs ->
  fold_left (fun filename char => replace (String char "") "_" filename) cs s
  = string_map (sanitize cs) s.
Proof.
  revert s. induction cs as [|c cs IH]; intros s Hnot; cbn [fold_left].
  - rewrite <- (string_map_id s) at 1. apply string_map_ext. intros x.
    unfold sanitize. by rewrite bool_decide_eq_false_2 by apply not_elem_of_nil.
  - apply not_elem_of_cons in Hnot as [Hne Hnot].
    rewrite IH by done. rewrite replace_one_char, string_map_map.
    apply string_map_ext. intros x. unfold sanitize.
    destruct (decide (x = c)) as [->|Hxc].
    + rewrite (bool_decide_eq_true_2 (c = c)) by done.
      rewrite (bool_decide_eq_false_2 _ Hnot).
      by rewrite bool_decide_eq_true_2 by by left.
    + rewrite (bool_decide_eq_false_2 (x = c)) by done.
      destruct (decide (x ∈ cs)) as [Hin|Hout].
      * rewrite !bool_decide_eq_true_2; [done | by right | done].
      * rewrite !bool_decide_eq_false_2; [done | | done].
        by intros [?|?]%elem_of_cons.
Qed.

Lemma unsafe_chars_list :
  String.list_ascii_of_string unsafe_chars
  = ["<"; ">"; ":"; "034"; "/"; "\"; "|"; "?"; "*"]%char.
Proof. reflexivity. Qed.

Lemma underscore_is_safe : "_"%char ∉ String.list_ascii_of_string unsafe_chars.
Proof.
  rewrite unsafe_chars_list, !elem_of_cons, elem_of_nil. intros H.
  repeat (destruct H as [H|H]; [discriminate H |]). done.
Qed.

Lemma clean_filename_map (s : string) :
  clean_filename s
  = string_map (sanitize (String.list_ascii_of_string unsafe_chars)) s.
Proof. apply replace_chars_fold, underscore_is_safe. Qed.

Lemma contains_char_map_false (f : ascii -> ascii) (c : ascii) (s : string) :
  (forall x, f x <> c) -> contains (String c "") (string_map f s) = false.
Proof.
  intros Hf. induction s as [|x s IH]; [done |].
  cbn [string_map]. rewrite contains_char_cons, IH, orb_false_r.
  apply bool_decide_eq_false_2. intros ->. by apply (Hf x).
Qed.

Lemma sanitize_safe (cs : list ascii) (c x : ascii) :
  "_"%char ∉ cs -> c ∈ cs -> sanitize cs x <> c.
Proof.
  intros Hnot Hc. unfold sanitize. case_bool_decide as Hx; congruence.
Qed.

Lemma sanitize_fixed (cs : list ascii) (x : ascii) :
  "_"%char ∉ cs -> sanitize cs x = x <-> x ∉ cs.
Proof.
  intros Hnot. unfold sanitize. case_bool_decide as Hx; split; try done.
  intros <-. done.
Qed.

Lemma string_map_fixed (cs : list ascii) (s : string) :
  "_"%char ∉ cs ->
  string_map (sanitize cs) s = s
  <-> forall c, c ∈ cs -> contains (String c "") s = false.
Proof.
  intros Hnot. induction s as [|x s IH]; [done |].
  cbn [string_map]. split.
  - intros [= Hx Hs] c Hc. rewrite contains_char_cons.
    rewrite (proj1 IH Hs c Hc), orb_false_r.
    apply bool_decide_eq_false_2. intros ->.
    by apply (sanitize_fixed cs x Hnot) in Hx.
  - intros Hfree. f_equal.
    + apply sanitize_fixed; [done |]. intros Hx.
      specialize (Hfree x Hx). rewrite contains_char_cons in Hfree.
      by rewrite bool_decide_eq_true_2 in Hfree.
    + apply IH. intros c Hc. specialize (Hfree c Hc).
      rewrite contains_char_cons in Hfree.
      by apply orb_false_iff in Hfree as [_ ?].
Qed.

End CleanFilename.

(** X1. [clean_filename] works place by place: the result is as long as
    the name, and at every index it holds ['_'] where the name holds one of
    the nine unsafe characters and the character of the name elsewhere. *)
Theorem clean_filename_charwise (filename : string) (n : nat) :
  String.length (clean_filename filename) = String.length filename
  /\ String.get n (clean_filename filename)
     = (fun c => if bool_decide (c ∈ String.list_ascii_of_string unsafe_chars)
                 then "_"%char else c) <$> String.get n filename.
Proof.
  rewrite clean_filename_map. split.
  - apply string_map_length.
  - apply string_map_get.
Qed.

(** X2. No unsafe character is left in the result of [clean_filename]. *)
Theorem clean_filename_safe (filename : string) (c : ascii) :
  c ∈ String.list_ascii_of_string unsafe_chars ->
  PyStr.contains (String c "") (clean_filename filename) = false.
Proof.
  intros Hc. rewrite clean_filename_map.
  apply contains_char_map_false. intros x.
  by apply sanitize_safe; [apply underscore_is_safe |].
Qed.

Lemma clean_filename_safe_witness :
  PyStr.contains "/" (clean_filename "a/b\c:d.png") = false.
Proof.
  apply (clean_filename_safe "a/b\c:d.png" "/"%char).
  rewrite unsafe_chars_list, !elem_of_cons. right; right; right; right; by left.
Defined.

(** X3. [clean_filename] leaves a name unchanged exactly when the name
    holds none of the unsafe characters, and a second application changes
    nothing any more. *)
Theorem clean_filename_fixed (filename : string) :
  (clean_filename filename = filename
   <-> forall c, c ∈ String.list_ascii_of_string unsafe_chars ->
         PyStr.contains (String c "") filename = false)
  /\ clean_filename (clean_filename filename) = clean_filename filename.
Proof.
  assert (forall s,
            clean_filename s = s
            <-> forall c, c ∈ String.list_ascii_of_string unsafe_chars ->
                  PyStr.contains (String c "") s = false) as Hfix.
  { intros s. rewrite clean_filename_map.
    apply string_map_fixed, underscore_is_safe. }
  split; [apply Hfix |].
  apply Hfix. intros c Hc.
  rewrite clean_filename_map. apply contains_char_map_false. intros x.
  by apply sanitize_safe; [apply underscore_is_safe |].
Qed.

(** X4. Cleaning a concatenation is concatenating the cleaned parts: no
    replacement reaches across the seam, so a directory part and a file part
    can be cleaned apart or together. *)
Theorem clean_filename_app (s t : string) :
  clean_filename (s +:+ t) = clean_filename s +:+ clean_filename t.
Proof. rewrite !clean_filename_map. apply string_map_app. Qed.

(* ===================================================================== *)
(** ** More on the derived name *)
(* ===================================================================== *)

Lemma contains_dot_nonempty (s : string) :
  PyStr.contains "." s = true -> s <> "".
Proof. by intros H ->. Qed.

(** X5. Whatever the container is called, a name is derived (no exception
    is raised), it has a ['.'] in it, it has no ['-'] in it, and so it is
    not empty. *)
Theorem original_name_shape (file_name : string) :
  exists name,
    original_name file_name = Some name
    /\ PyStr.contains "." name = true
    /\ PyStr.contains "-" name = false
    /\ name <> "".
Proof.
  destruct (base_name_total file_name) as [base Hbase].
  exists (add_default_ext base). unfold original_name. rewrite Hbase.
  pose proof (add_default_ext_has_dot base) as Hdot.
  split_and!; try done.
  - apply add_default_ext_no_dash. by apply (base_name_no_dash file_name).
  - by apply contains_dot_nonempty.
Qed.

(* ===================================================================== *)
(** ** Every outcome of [extract_webp_from_ctex] *)
(* ===================================================================== *)

(** From any position on, either no well-formed frame follows or there is
    a first one. *)
Lemma frame_search (data : list byte) (n : nat) (pos : Z) :
  0 <= pos -> (Z.to_nat (len data - pos) < n)%nat ->
  (forall j size, pos <= j -> ~ well_formed_frame data j size)
  \/ exists k size, first_frame data pos k size.
Proof.
  assert (0 < len webp_sig) as Hsig by done.
  revert pos. induction n as [|n IH]; intros pos H0 Hn; [lia |].
  destruct (Z.eq_dec (find webp_sig data pos) (-1)) as [Hm|Hm].
  { left. intros j size Hj (Hocc & _)%well_formed_frame_checks.
    by apply (find_absent webp_sig data pos j). }
  destruct (find_found webp_sig data pos _ H0 eq_refl Hm)
    as (Hle & Hocc & Hfirst).
  pose proof (occurs_at_bound _ _ _ Hsig Hocc) as Hb.
  set (c := find webp_sig data pos) in *.
  assert (forall j size, pos <= j < c -> ~ well_formed_frame data j size)
    as Hbefore.
  { intros j size Hj (Hoj & _)%well_formed_frame_checks. by apply (Hfirst j). }
  destruct (frame_ok data c) eqn:Hok.
  - right. destruct (frame_ok_well_formed data c Hocc Hok) as [size Hwf].
    exists c, size. by split_and!.
  - assert (forall size, ~ well_formed_frame data c size) as Hc.
    { intros size (_ & Hok' & _)%well_formed_frame_checks. congruence. }
    destruct (IH (c + 1) ltac:(lia) ltac:(lia)) as [Hnone|(k & size & Hk)].
    + left. intros j size Hj.
      destruct (Z.lt_trichotomy j c) as [?|[->|?]].
      * apply Hbefore. lia.
      * apply Hc.
      * apply Hnone. lia.
    + right. exists k, size. destruct Hk as (Hck & Hwf & Hno).
      split_and!; [lia | done |].
      intros j size' Hj.
      destruct (Z.lt_trichotomy j c) as [?|[->|?]].
      * apply Hbefore. lia.
      * apply Hc.
      * apply Hno. lia.
Qed.

(** A first frame, a readable container, a write that is let through:
    the frame is written and reported. *)
Lemma extract_writes_frame (ctex_path output_dir : Path) (fs : FileSystem)
    (data : list byte) (k size : Z) (name : string) :
  fs_denied fs !! ctex_path = None ->
  fs_files fs !! ctex_path = Some data ->
  first_frame data 0 k size ->
  original_name (path_name ctex_path) = Some name ->
  fs_denied fs !! path_join output_dir name = None ->
  extract_webp_from_ctex ctex_path output_dir fs
  = Some ((true, path_name (path_join output_dir name)),
          fs_with (path_join output_dir name) (slice data k (k + 8 + size)) fs).
Proof.
  intros Hden Hfile Hfirst Hname Hout.
  pose proof Hfirst as (Hk & (H0 & _ & _ & Htag & _) & _).
  pose proof (tag_inside data k H0 Htag) as Hin.
  rewrite (extract_after_read ctex_path output_dir fs data Hden Hfile).
  rewrite (while_loop_first_frame ctex_path output_dir data
             (S (length data)) 0 k size name fs ltac:(lia) Hfirst Hname
             ltac:(unfold len in *; lia)).
  unfold save_frame. by rewrite Hout.
Qed.

(** The two ways a call can end. *)
Lemma extract_cases (ctex_path output_dir : Path) (fs : FileSystem) :
  (exists msg,
     extract_webp_from_ctex ctex_path output_dir fs = Some ((false, msg), fs))
  \/ (exists data k size name,
        fs_denied fs !! ctex_path = None
        /\ fs_files fs !! ctex_path = Some data
        /\ first_frame data 0 k size
        /\ original_name (path_name ctex_path) = Some name
        /\ fs_denied fs !! path_join output_dir name = None
        /\ extract_webp_from_ctex ctex_path output_dir fs
           = Some ((true, path_name (path_join output_dir name)),
                   fs_with (path_join output_dir name)
                     (slice data k (k + 8 + size)) fs)).
Proof.
  destruct (fs_denied fs !! ctex_path) as [m|] eqn:Hden.
  { left. apply extract_read_fails. left. congruence. }
  destruct (fs_files fs !! ctex_path) as [data|] eqn:Hfile.
  2: { left. apply extract_read_fails. by right. }
  destruct (frame_search data (S (length data)) 0 ltac:(lia)
              ltac:(unfold len; lia)) as [Hnone|(k & size & Hfirst)].
  { left. exists not_found_msg.
    apply (extract_no_frame ctex_path output_dir fs data Hden Hfile).
    intros j size Hwf. apply (Hnone j size); [apply Hwf | done]. }
  destruct (original_name_total (path_name ctex_path)) as [name Hname].
  destruct (fs_denied fs !! path_join output_dir name) as [msg|] eqn:Hout.
  { left. exists msg. by eapply extract_write_fails. }
  right. exists data, k, size, name. split_and!; try done.
  by apply extract_writes_frame.
Qed.


(* ===================================================================== *)
(** ** The bytes that are written, read again *)
(* ===================================================================== *)

(** A slice of a slice is a slice of the buffer. *)
Lemma slice_slice (data : list byte) (k n a b : Z) :
  0 <= k -> 0 <= a -> a <= b -> b <= n -> k + n <= len data ->
  slice (slice data k (k + n)) a b = slice data (k + a) (k + b).
Proof.
  intros Hk Ha Hab Hbn Hin.
  rewrite (slice_nonneg data k (k + n)) by lia.
  rewrite (slice_nonneg data (k + a) (k + b)) by lia.
  rewrite slice_nonneg by lia.
  replace (Z.to_nat (k + n - k)) with (Z.to_nat n) by lia.
  replace (Z.to_nat (k + b - (k + a))) with (Z.to_nat (b - a)) by lia.
  replace (Z.to_nat (k + a)) with (Z.to_nat k + Z.to_nat a)%nat by lia.
  rewrite <- drop_drop.
  generalize (drop (Z.to_nat k) data). intros l.
  rewrite skipn_firstn_comm, take_take.
  f_equal. lia.
Qed.

Lemma slice_whole (w : list byte) : slice w 0 (len w) = w.
Proof.
  rewrite slice_nonneg by (pose proof (len_nonneg w); lia).
  rewrite drop_0, take_ge; [done | unfold len; lia].
Qed.

Lemma len_slice (data : list byte) (lo hi : Z) :
  0 <= lo -> lo <= hi -> hi <= len data -> len (slice data lo hi) = hi - lo.
Proof.
  intros. unfold len at 1. rewrite length_slice by lia. lia.
Qed.

(** The header of a frame, read in the frame alone. *)
Lemma frame_header (data : list byte) (k size : Z) :
  well_formed_frame data k size ->
  let w := slice data k (k + 8 + size) in
  len w = 8 + size
  /\ 0 <= size < 2 ^ 32
  /\ slice w 0 4 = webp_sig
  /\ declared_size w 0 = Some size
  /\ (4 <= size -> slice w 8 12 = webp_tag).
Proof.
  intros (Hk & Hsig & Hsize & Htag & Hend) w.
  pose proof (unpack_u32_le_range _ _ Hsize) as Hrange.
  assert (len w = 8 + size) as Hlen
    by (unfold w; rewrite len_slice by lia; lia).
  split_and!; try done; try lia.
  - unfold w. replace (k + 8 + size) with (k + (8 + size)) by lia.
    rewrite slice_slice by lia. by rewrite Z.add_0_r.
  - unfold declared_size, w.
    replace (k + 8 + size) with (k + (8 + size)) by lia.
    change (0 + 4) with 4. change (0 + 8) with 8.
    by rewrite slice_slice by lia.
  - intros Hbig. unfold w.
    replace (k + 8 + size) with (k + (8 + size)) by lia.
    by rewrite slice_slice by lia.
Qed.

(** X7. A file that is reported as extracted begins with the marker, and
    the size field in its bytes 4 to 8 is its own length less 8: what is
    written is a frame that measures itself. *)
Theorem extracted_file_is_frame (ctex_path output_dir : Path)
    (fs fs' : FileSystem) (text : string) :
  extract_webp_from_ctex ctex_path output_dir fs = Some ((true, text), fs') ->
  exists output_path w size,
    text = path_name output_path
    /\ fs_files fs' !! output_path = Some w
    /\ slice w 0 4 = webp_sig
    /\ declared_size w 0 = Some size
    /\ len w = 8 + size
    /\ (4 <= size -> slice w 8 12 = webp_tag).
Proof.
  intros Hres.
  destruct (extract_cases ctex_path output_dir fs)
    as [[msg Hfail]|(data & k & size & name & _ & _ & Hfirst & _ & _ & Hok)];
    [congruence |].
  rewrite Hok in Hres. injection Hres as <- <-.
  destruct Hfirst as (_ & Hwf & _).
  destruct (frame_header data k size Hwf) as (Hlen & _ & Hsig & Hsize & Htag).
  exists (path_join output_dir name), (slice data k (k + 8 + size)), size.
  split_and!; try done.
  cbn [fs_with fs_files]. apply lookup_insert_eq.
Qed.

Lemma extracted_file_is_frame_witness :
  exists output_path w size,
    "icon.png" = path_name output_path
    /\ fs_files (fs_with ["extracted_images"; "icon.png"]
                   (slice sample_data 12 26) sample_fs) !! output_path
       = Some w
    /\ slice w 0 4 = webp_sig
    /\ declared_size w 0 = Some size
    /\ len w = 8 + size
    /\ (4 <= size -> slice w 8 12 = webp_tag).
Proof.
  apply (extracted_file_is_frame sample_path sample_out sample_fs).
  vm_compute. reflexivity.
Defined.

(** X8. Round trip.  A frame with a declared size of at least 4, cut out
    of any buffer and stored as a container of its own, is extracted as
    itself: the bytes written are the bytes read. *)
Theorem frame_round_trip (ctex_path output_dir : Path) (fs : FileSystem)
    (data : list byte) (k size : Z) (name : string) :
  well_formed_frame data k size -> 4 <= size ->
  fs_denied fs !! ctex_path = None ->
  fs_files fs !! ctex_path = Some (slice data k (k + 8 + size)) ->
  original_name (path_name ctex_path) = Some name ->
  fs_denied fs !! path_join output_dir name = None ->
  extract_webp_from_ctex ctex_path output_dir fs
  = Some ((true, path_name (path_join output_dir name)),
          fs_with (path_join output_dir name) (slice data k (k + 8 + size)) fs).
Proof.
  intros Hwf Hbig Hden Hfile Hname Hout.
  destruct (frame_header data k size Hwf) as (Hlen & Hrange & Hsig & Hsize & Htag).
  set (w := slice data k (k + 8 + size)) in *.
  assert (first_frame w 0 0 size) as Hfirst.
  { split; [lia |]. split; [| intros j size' Hj; lia].
    unfold well_formed_frame. split_and!; try done; try lia. by apply Htag. }
  rewrite (extract_writes_frame ctex_path output_dir fs w 0 size name
             Hden Hfile Hfirst Hname Hout).
  replace (0 + 8 + size) with (len w) by lia. by rewrite slice_whole.
Qed.

Lemma sample_frame : well_formed_frame sample_data 12 6.
Proof.
  unfold well_formed_frame. split_and!; try reflexivity; try lia.
  vm_compute. discriminate.
Qed.

Lemma frame_round_trip_witness :
  extract_webp_from_ctex ["extracted_images"; "icon.png"] ["again"]
    (fs_with ["extracted_images"; "icon.png"] (slice sample_data 12 26)
       sample_fs)
  = Some ((true, "icon.png"),
          fs_with ["again"; "icon.png"] (slice sample_data 12 26)
            (fs_with ["extracted_images"; "icon.png"]
               (slice sample_data 12 26) sample_fs)).
Proof.
  exact (frame_round_trip ["extracted_images"; "icon.png"] ["again"]
           (fs_with ["extracted_images"; "icon.png"] (slice sample_data 12 26)
              sample_fs)
           sample_data 12 6 "icon.png" sample_frame ltac:(lia)
           eq_refl eq_refl eq_refl eq_refl).
Defined.

(** X9. The checks accept a declared size below 4 (the type tag is looked
    for in the buffer, not inside the frame).  The file written then has
    fewer than 12 bytes, and the program itself finds no frame in it: stored
    as a container it gives the not-found failure. *)
Theorem short_frame_not_recognised (ctex_path output_dir : Path)
    (fs : FileSystem) (data : list byte) (k size : Z) :
  well_formed_frame data k size -> size < 4 ->
  fs_denied fs !! ctex_path = None ->
  fs_files fs !! ctex_path = Some (slice data k (k + 8 + size)) ->
  len (slice data k (k + 8 + size)) < 12
  /\ extract_webp_from_ctex ctex_path output_dir fs
     = Some ((false, not_found_msg), fs).
Proof.
  intros Hwf Hsmall Hden Hfile.
  destruct (frame_header data k size Hwf) as (Hlen & _).
  split; [lia |].
  apply (extract_no_frame ctex_path output_dir fs _ Hden Hfile).
  intros j size' (Hj & _ & _ & Htag & _).
  pose proof (tag_inside _ j Hj Htag). lia.
Qed.

Lemma sample_short_frame : well_formed_frame sample_short 0 0.
Proof.
  unfold well_formed_frame. split_and!; try reflexivity; try lia.
  vm_compute. discriminate.
Qed.

Lemma short_frame_not_recognised_witness :
  len (slice sample_short 0 (0 + 8 + 0)) < 12
  /\ extract_webp_from_ctex sample_stub sample_out sample_fs2
     = Some ((false, not_found_msg), sample_fs2).
Proof.
  exact (short_frame_not_recognised sample_stub sample_out sample_fs2
           sample_short 0 0 sample_short_frame ltac:(lia) eq_refl eq_refl).
Defined.

(* ===================================================================== *)
(** ** More on the batch *)
(* ===================================================================== *)

(** One call changes at most the file under the derived name. *)
Lemma extract_footprint (ctex_path output_dir : Path) (fs fs' : FileSystem)
    (r : bool * string) :
  extract_webp_from_ctex ctex_path output_dir fs = Some (r, fs') ->
  fs_denied fs' = fs_denied fs
  /\ forall p,
       (forall name, original_name (path_name ctex_path) = Some name ->
                     p <> path_join output_dir name) ->
       fs_files fs' !! p = fs_files fs !! p.
Proof.
  intros Hres.
  destruct (extract_cases ctex_path output_dir fs)
    as [[msg Hfail]|(data & k & size & name & _ & _ & _ & Hname & _ & Hok)].
  - rewrite Hfail in Hres. by injection Hres as <- <-.
  - rewrite Hok in Hres. injection Hres as <- <-.
    split; [done |]. intros p Hp. cbn [fs_with fs_files].
    apply lookup_insert_ne. intros <-. by apply (Hp name).
Qed.

Lemma extract_loop_footprint (ctex_files : list Path) (output_dir : Path)
    (acc c : counters) (fs fs' : FileSystem) :
  extract_loop ctex_files output_dir acc fs = Some (c, fs') ->
  fs_denied fs' = fs_denied fs
  /\ forall p,
       (forall f name, f ∈ ctex_files ->
          original_name (path_name f) = Some name ->
          p <> path_join output_dir name) ->
       fs_files fs' !! p = fs_files fs !! p.
Proof.
  revert acc fs. induction ctex_files as [|f files IH]; intros acc fs Hloop.
  - cbn in Hloop. by injection Hloop as <- <-.
  - cbn [extract_loop] in Hloop.
    destruct (extract_webp_from_ctex f output_dir fs) as [[[ok text] fs1]|]
      eqn:Hone; [| done].
    destruct (extract_footprint f output_dir fs fs1 _ Hone) as [Hd1 Hf1].
    destruct (IH _ fs1 Hloop) as [Hd2 Hf2].
    split; [congruence |]. intros p Hp.
    rewrite Hf2, Hf1; [done | |].
    + intros name. apply Hp. by left.
    + intros g name Hg. apply Hp. by right.
Qed.

(** X10. The batch writes only under the output directory and only under
    names derived from its containers: the content of every other path,
    and the set of refused paths, are after the batch what they were
    before. *)
Theorem batch_footprint (ctex_files : list Path) (output_dir : Path)
    (fs fs' : FileSystem) (c : counters) :
  extract_batch ctex_files output_dir fs = Some (c, fs') ->
  fs_denied fs' = fs_denied fs
  /\ (forall p,
        (forall f name, f ∈ ctex_files ->
           original_name (path_name f) = Some name ->
           p <> path_join output_dir name) ->
        fs_files fs' !! p = fs_files fs !! p)
  /\ (forall p,
        p <> output_dir -> (forall name, p <> (output_dir ++ [name])%list) ->
        fs_files fs' !! p = fs_files fs !! p).
Proof.
  intros Hbatch.
  destruct (extract_loop_footprint _ _ _ _ _ _ Hbatch) as [Hden Hfiles].
  split_and!; try done.
  intros p Hdir Hchild. apply Hfiles. intros f name _ _.
  unfold path_join. case_bool_decide; [done | apply Hchild].
Qed.

Lemma batch_footprint_witness :
  exists c fs',
    extract_batch [sample_path; sample_bad_path] sample_out sample_fs
    = Some (c, fs')
    /\ fs_denied fs' = fs_denied sample_fs
    /\ fs_files fs' !! sample_path = Some sample_data.
Proof.
  destruct (extract_loop_spec [sample_path; sample_bad_path] sample_out
              {| success_count := 0; failed_count := 0; failed_files := [] |}
              sample_fs) as (rs & c & fs' & _ & Hbatch & _).
  destruct (batch_footprint [sample_path; sample_bad_path] sample_out
              sample_fs fs' c Hbatch) as (Hden & _ & Hout).
  exists c, fs'. split; [exact Hbatch |]. split; [exact Hden |].
  rewrite Hout; [reflexivity | discriminate | discriminate].
Defined.

(** X11. Two containers whose names give the same output name are both
    reported as extracted, and the file holds the frame of the second: the
    later one silently takes the place of the earlier one. *)
Theorem name_collision (f1 f2 output_dir : Path) (fs : FileSystem)
    (d1 d2 : list byte) (k1 s1 k2 s2 : Z) (name : string) :
  fs_denied fs !! f1 = None -> fs_files fs !! f1 = Some d1 ->
  fs_denied fs !! f2 = None -> fs_files fs !! f2 = Some d2 ->
  first_frame d1 0 k1 s1 -> first_frame d2 0 k2 s2 ->
  original_name (path_name f1) = Some name ->
  original_name (path_name f2) = Some name ->
  fs_denied fs !! path_join output_dir name = None ->
  path_join output_dir name <> f2 ->
  exists c fs',
    extract_batch [f1; f2] output_dir fs = Some (c, fs')
    /\ success_count c = 2%nat /\ failed_count c = 0%nat
    /\ fs_files fs' !! path_join output_dir name
       = Some (slice d2 k2 (k2 + 8 + s2)).
Proof.
  intros Hden1 Hfile1 Hden2 Hfile2 Hfirst1 Hfirst2 Hname1 Hname2 Hout Hne.
  unfold extract_batch. cbn [extract_loop].
  rewrite (extract_writes_frame f1 output_dir fs d1 k1 s1 name
             Hden1 Hfile1 Hfirst1 Hname1 Hout).
  set (fs1 := fs_with (path_join output_dir name) (slice d1 k1 (k1 + 8 + s1)) fs).
  assert (fs_files fs1 !! f2 = Some d2) as Hfile2'.
  { unfold fs1. cbn [fs_with fs_files]. by rewrite lookup_insert_ne. }
  rewrite (extract_writes_frame f2 output_dir fs1 d2 k2 s2 name
             Hden2 Hfile2' Hfirst2 Hname2 Hout).
  eexists _, _. split; [reflexivity |]. cbn.
  split_and!; try done. apply lookup_insert_eq.
Qed.

Lemma first_frame_short : first_frame sample_short 0 0 0.
Proof.
  split; [lia |]. split; [apply sample_short_frame |].
  intros j size' Hj. lia.
Qed.

Lemma name_collision_witness :
  exists c fs',
    extract_batch [sample_path; sample_twin] sample_out sample_fs2
    = Some (c, fs')
    /\ success_count c = 2%nat /\ failed_count c = 0%nat
    /\ fs_files fs' !! ["extracted_images"; "icon.png"]
       = Some (slice sample_short 0 (0 + 8 + 0)).
Proof.
  exact (name_collision sample_path sample_twin sample_out sample_fs2
           sample_data sample_short 12 6 0 0 "icon.png"
           eq_refl eq_refl eq_refl eq_refl first_frame_sample first_frame_short
           eq_refl eq_refl eq_refl ltac:(discriminate)).
Defined.

(** The counting loop started with other counters adds to them. *)
Lemma extract_loop_add (ctex_files : list Path) (output_dir : Path)
    (a b : counters) (fs : FileSystem) :
  extract_loop ctex_files output_dir (add_counters a b) fs
  = match extract_loop ctex_files output_dir b fs with
    | Some (c, fs') => Some (add_counters a c, fs')
    | None => None
    end.
Proof.
  revert b fs. induction ctex_files as [|f files IH]; intros b fs; [done |].
  cbn [extract_loop].
  destruct (extract_webp_from_ctex f output_dir fs) as [[[ok text] fs1]|];
    [| done].
  destruct ok.
  - rewrite <- IH. f_equal. unfold add_counters. cbn. f_equal. lia.
  - rewrite <- IH. f_equal. unfold add_counters. cbn. f_equal; [lia |].
    by rewrite app_assoc.
Qed.

Lemma extract_loop_app (l1 l2 : list Path) (output_dir : Path)
    (acc : counters) (fs : FileSystem) :
  extract_loop (l1 ++ l2) output_dir acc fs
  = match extract_loop l1 output_dir acc fs with
    | Some (acc1, fs1) => extract_loop l2 output_dir acc1 fs1
    | None => None
    end.
Proof.
  revert acc fs. induction l1 as [|f l1 IH]; intros acc fs; [done |].
  cbn [app extract_loop].
  destruct (extract_webp_from_ctex f output_dir fs) as [[[ok text] fs1]|];
    [| done].
  apply IH.
Qed.

(** X12. A batch over two lists in a row is the batch over the first list
    followed by the batch over the second on the file system the first one
    leaves: the counts add up and the failed names follow each other. *)
Theorem batch_app (l1 l2 : list Path) (output_dir : Path) (fs : FileSystem) :
  exists c1 fs1 c2 fs2,
    extract_batch l1 output_dir fs = Some (c1, fs1)
    /\ extract_batch l2 output_dir fs1 = Some (c2, fs2)
    /\ extract_batch (l1 ++ l2) output_dir fs
       = Some ({| success_count := success_count c1 + success_count c2;
                  failed_count := failed_count c1 + failed_count c2;
                  failed_files := failed_files c1 ++ failed_files c2 |}, fs2).
Proof.
  set (zero := {| success_count := 0; failed_count := 0; failed_files := [] |}).
  destruct (extract_loop_spec l1 output_dir zero fs)
    as (rs1 & c1 & fs1 & _ & H1 & _).
  destruct (extract_loop_spec l2 output_dir zero fs1)
    as (rs2 & c2 & fs2 & _ & H2 & _).
  exists c1, fs1, c2, fs2. unfold extract_batch. fold zero.
  split; [done |]. split; [done |].
  rewrite extract_loop_app, H1.
  replace c1 with (add_counters c1 zero) at 1.
  - by rewrite extract_loop_add, H2.
  - destruct c1. unfold add_counters, zero. cbn. f_equal; [lia | lia |].
    apply app_nil_r.
Qed.

(* ===================================================================== *)
(** ** [extract_images] *)
(* ===================================================================== *)

Section DriverFacts.

Variables (to_path : string -> Path)
          (resolve : Path -> M Path)
          (path_exists : Path -> M bool)
          (glob : Path -> string -> M (list Path))
          (mkdir : Path -> M unit).


End DriverFacts.


(* ===================================================================== *)
(** ** What lies behind the frame *)
(* ===================================================================== *)

(** A frame found in the first [n] bytes is a frame of the buffer. *)
Lemma well_formed_frame_prefix (data : list byte) (n j size : Z) :
  0 <= n -> n <= len data ->
  well_formed_frame (slice data 0 n) j size -> well_formed_frame data j size.
Proof.
  intros Hn Hlen (Hj & Hsig & Hsize & Htag & Hend).
  pose proof (tag_inside _ j Hj Htag) as Hin.
  rewrite len_slice in Hin, Hend by lia. rewrite Z.sub_0_r in Hin, Hend.
  pose proof (unpack_u32_le_range _ _ Hsize) as Hrange.
  replace n with (0 + n) in Hsig, Hsize, Htag by lia.
  rewrite slice_slice in Hsig, Hsize, Htag by lia.
  rewrite !Z.add_0_l in Hsig, Hsize, Htag.
  unfold well_formed_frame. split_and!; try done. lia.
Qed.

(** X14. Bytes behind the end of the first frame do not matter: if the
    container holds only the first [n] bytes of a buffer, with the first
    frame of the buffer (declared size at least 4) inside them, the same
    bytes are written as for the whole buffer. *)
Theorem trailing_bytes_ignored (ctex_path output_dir : Path) (fs : FileSystem)
    (data : list byte) (k size n : Z) (name : string) :
  first_frame data 0 k size -> 4 <= size ->
  k + 8 + size <= n -> n <= len data ->
  fs_denied fs !! ctex_path = None ->
  fs_files fs !! ctex_path = Some (slice data 0 n) ->
  original_name (path_name ctex_path) = Some name ->
  fs_denied fs !! path_join output_dir name = None ->
  first_frame (slice data 0 n) 0 k size
  /\ extract_webp_from_ctex ctex_path output_dir fs
     = Some ((true, path_name (path_join output_dir name)),
             fs_with (path_join output_dir name)
               (slice data k (k + 8 + size)) fs).
Proof.
  intros (Hk & Hwf & Hno) Hbig Hn Hlen Hden Hfile Hname Hout.
  pose proof Hwf as (H0 & Hsig & Hsize & Htag & Hend).
  pose proof (unpack_u32_le_range _ _ Hsize) as Hrange.
  assert (forall a b, 0 <= a -> a <= b -> b <= n ->
            slice (slice data 0 n) a b = slice data a b) as Hsl.
  { intros a b Ha Hab Hb. replace n with (0 + n) by lia.
    rewrite slice_slice by lia. by rewrite !Z.add_0_l. }
  assert (first_frame (slice data 0 n) 0 k size) as Hfirst.
  { split; [done |]. split.
    - unfold well_formed_frame. rewrite !Hsl by lia.
      rewrite len_slice by lia. repeat (split; [done |]). lia.
    - intros j size' Hj Hwf'. apply (Hno j size' Hj).
      apply (well_formed_frame_prefix data n); [lia | lia | done]. }
  split; [done |].
  rewrite (extract_writes_frame ctex_path output_dir fs _ k size name
             Hden Hfile Hfirst Hname Hout).
  by rewrite Hsl by lia.
Qed.

Lemma trailing_bytes_ignored_witness :
  first_frame (slice sample_data 0 26) 0 12 6
  /\ extract_webp_from_ctex sample_path sample_out
       {| fs_files := {[ sample_path := slice sample_data 0 26 ]};
          fs_denied := ∅ |}
     = Some ((true, "icon.png"),
             fs_with ["extracted_images"; "icon.png"] (slice sample_data 12 26)
               {| fs_files := {[ sample_path := slice sample_data 0 26 ]};
                  fs_denied := ∅ |}).
Proof.
  apply (trailing_bytes_ignored sample_path sample_out
           {| fs_files := {[ sample_path := slice sample_data 0 26 ]};
              fs_denied := ∅ |}
           sample_data 12 6 26 "icon.png" first_frame_sample);
    try reflexivity; try lia.
  vm_compute. discriminate.
Defined.
